(** * AlphaLink: meltdown scanner, aggregator monitor and admin overrides

    A shallow embedding of
    - [scripts/riskScanner.js]       (the meltdown evaluation cycle),
    - [scripts/aggregatorMonitor.js] (the aggregator metrics collector),
    - [src/admin/admin.js]           ([getAdminRole], [logAdminAction], [forceMarketPause]),
    - [src/admin/adminWebApp.js]     (the [pause_ai] and [resume_ai] routes).

    JavaScript numbers are IEEE 754 binary64 values and are modelled by the
    kernel's primitive floats.  An [async] function becomes a computation
    that ends in a completion record: a value or a thrown error.  Everything
    a function reads from outside the process (query results, the price
    feed, the RPC probe) comes from an environment [Env]; everything it does
    to the outside is recorded, newest first, in a list of [Event]s.

    What the model takes for granted:
    - a scanner instance issues all its queries under one database session,
      and the two advisory-lock queries themselves are answered;
    - the notification functions do not throw;
    - a count column holds an integer, read exactly by [parseInt];
    - [src/risk/risk_control.js] is not among the sources: the trading
      state and its pause and resume operations follow the spec;
    - riskScanner.js imports [collectAggregatorMetrics] from a module that
      is not among the sources: [checkAggregatorMetricsForMeltdownWith] is
      the source function with that collector as its argument, and the cycle
      runs it with the collector of aggregatorMonitor.js. *)

From Stdlib Require Import ZArith List String Bool Floats Lia.
From Stdlib Require Uint63 DecimalString.
Import ListNotations.
Local Open Scope string_scope.
Local Open Scope list_scope.
Local Open Scope Z_scope.

Set Implicit Arguments.

(** ** JavaScript completions *)

Inductive JsError : Type :=
| TypeError (message : string)
| RangeError (message : string)
| Error (message : string).

Inductive Completion (A : Type) : Type :=
| Normal (value : A)
| Throw (e : JsError).

Arguments Normal {A} value.
Arguments Throw {A} e.

Definition is_throw {A} (c : Completion A) : bool :=
  match c with Normal _ => false | Throw _ => true end.

(** The operations every [async] function of the program is written with.
    [attempt] reifies the completion of a block: it is what [try] does
    before control reaches [catch] or [finally]. *)
Class JsMonad (m : Type -> Type) : Type := {
  ret : forall {A}, A -> m A;
  bind : forall {A B}, m A -> (A -> m B) -> m B;
  throw : forall {A}, JsError -> m A;
  attempt : forall {A}, m A -> m (Completion A)
}.

Declare Scope js_scope.
Delimit Scope js_scope with js.
Notation "x <- c1 ;; c2" := (bind c1 (fun x => c2))
  (at level 61, c1 at next level, right associativity) : js_scope.
Notation "c1 ;; c2" := (bind c1 (fun _ => c2))
  (at level 61, right associativity) : js_scope.
Local Open Scope js_scope.

(** [try { body } catch (err) { handler }] *)
Definition try_catch {m} `{JsMonad m} {A} (body : m A) (handler : JsError -> m A) : m A :=
  c <- attempt body ;;
  match c with
  | Normal a => ret a
  | Throw err => handler err
  end.

(** [try { body } finally { cleanup }]: the cleanup runs on every completion
    of the body; an error thrown by the cleanup replaces the body's. *)
Definition try_finally {m} `{JsMonad m} {A} (body : m A) (cleanup : m unit) : m A :=
  c <- attempt body ;;
  cleanup ;;
  match c with
  | Normal a => ret a
  | Throw err => throw err
  end.

(** ** JavaScript numbers *)

(** [Number(z)] for an integer the database counted. *)
Definition num (z : Z) : float :=
  if z <? 0 then PrimFloat.opp (PrimFloat.of_uint63 (Uint63.of_Z (- z)))
  else PrimFloat.of_uint63 (Uint63.of_Z z).

(** [!x] on a number: zero (of either sign) and NaN are falsy. *)
Definition falsy (x : float) : bool :=
  PrimFloat.eqb x 0 || PrimFloat.is_nan x.

(** [x || d] on an optional number. *)
Definition or_default (x : option float) (d : float) : float :=
  match x with
  | Some v => if falsy v then d else v
  | None => d
  end.

(** [parseInt(x || '0', 10)] on a count column ([None] is null or undefined). *)
Definition parseInt_or0 (x : option Z) : Z :=
  match x with Some z => z | None => 0 end.

(** [x || d] on an optional string: the empty string is falsy. *)
Definition or_default_string (x : option string) (d : string) : string :=
  match x with
  | Some EmptyString => d
  | Some s => s
  | None => d
  end.

(** ** The outside world *)

Definition AdminId := Z.
Definition Session := nat.

Inductive Actor : Type :=
| SYSTEM
| ADMIN (admin_id : AdminId).

Inductive Query : Type :=
| Q_btc_price
| Q_trades_in_60s
| Q_error_rate
| Q_avg_latency
| Q_conflicts
| Q_recent_trades
| Q_fail_count
| Q_insert_aggregator_stats
| Q_insert_admin_logs (admin : AdminId) (action details : string)
| Q_admin_role (user_id : AdminId)
| Q_superadmins.

Inductive Event : Type :=
| EvQuery (q : Query)
| EvFetch (url : string)
| EvRpcProbe
| EvConsoleError (msg : string) (err : option JsError)
| EvConsoleLog (msg : string)
| EvGlobalAlert (msg : string)
| EvAdminNotification (to : AdminId) (msg : string)
| EvTryLock (s : Session) (got_lock : bool)
| EvUnlock (s : Session)
| EvPause (actor : Actor) (reason : string)
| EvResume (actor : Actor).

(** [res.rows] of a query result; [None] when the property is undefined. *)
Record QueryResult (Row : Type) : Type := { rows : option (list Row) }.
Arguments rows {Row} _.

Record PriceRow := { old_price : option float }.
Record TpsRow := { trades_in_60s : option Z }.
Record ErrorRateRow := { fail_count : option Z; total_count : option Z }.
Record LatencyRow := { avg_latency : option float }.
Record ConflictRow := { conflicts : option Z }.
Record FailCountRow := { burst_fail_count : option Z }.
Record RoleRow := { role : string }.
Record SuperadminRow := { user_id : AdminId }.
Record TradeRow := {
  row_user_id : Z;
  from_token : string;
  to_token : string;
  amount : string;
  row_status : string;
  slippage : string;
  tx_signature : string;
  time_epoch : float
}.

(** What one run reads from its collaborators. *)
Record Env : Type := {
  now : Z;
  db_btc_price : Completion (QueryResult PriceRow);
  feed_btc_usd : Completion (option float);
  db_trades_in_60s : Completion (QueryResult TpsRow);
  db_error_rate : Completion (QueryResult ErrorRateRow);
  db_avg_latency : Completion (QueryResult LatencyRow);
  db_conflicts : Completion (QueryResult ConflictRow);
  rpc_latest_blockhash : Completion unit;
  db_recent_trades : Completion (QueryResult TradeRow);
  db_fail_count : Completion (QueryResult FailCountRow);
  db_insert_aggregator_stats : Completion unit;
  db_insert_admin_logs : Completion unit;
  db_admin_role : AdminId -> Completion (QueryResult RoleRow);
  db_superadmins : Completion (QueryResult SuperadminRow);
  store_write : Completion unit
}.

(** ** Read-only computations

    The signal sources and the metrics collector only read the environment
    and emit events. *)
Definition R (A : Type) : Type := Env -> Completion A * list Event.

#[export] Instance R_monad : JsMonad R := {|
  ret := fun A a _ => (Normal a, []);
  bind := fun A B (c : R A) (k : A -> R B) env =>
    match c env with
    | (Normal a, t1) => let (r, t2) := k a env in (r, t2 ++ t1)
    | (Throw e, t1) => (Throw e, t1)
    end;
  throw := fun A e _ => (Throw e, []);
  attempt := fun A (c : R A) env => let (r, t) := c env in (Normal r, t)
|}.

Definition event (e : Event) : R unit := fun _ => (Normal tt, [e]).

(** [await query(sql)]: the result (or the rejection) the database gives. *)
Definition query {Row} (q : Query) (result : Env -> Completion (QueryResult Row))
  : R (QueryResult Row) :=
  fun env => (result env, [EvQuery q]).

Definition console_error (msg : string) (err : option JsError) : R unit :=
  event (EvConsoleError msg err).

Definition sendAdminGlobalAlert (msg : string) : R unit :=
  event (EvGlobalAlert msg).

Definition sendAdminNotification (to : AdminId) (msg : string) : R unit :=
  event (EvAdminNotification to msg).

(** [await fetch(url)] followed by reading the parsed body. *)
Definition fetch_json {A} (url : string) (body : Env -> Completion A) : R A :=
  fun env => (body env, [EvFetch url]).

(** [await connection.getLatestBlockhash()] *)
Definition getLatestBlockhash : R unit :=
  fun env => (rpc_latest_blockhash env, [EvRpcProbe]).

(** [res.rows.length === 0] is only reached when [res.rows] is defined. *)
Definition no_rows {Row} (res : QueryResult Row) : bool :=
  match rows res with
  | None => true
  | Some [] => true
  | Some (_ :: _) => false
  end.

(** [res.rows[0]]: reading index 0 of an undefined [rows] throws; of an
    empty array it is [undefined]. *)
Definition row0 {Row} (res : QueryResult Row) : R (option Row) :=
  match rows res with
  | None => throw (TypeError "Cannot read properties of undefined (reading '0')")
  | Some l => ret (hd_error l)
  end.

(** [res.rows[0].field]: a further property read, which throws on [undefined]. *)
Definition row0_strict {Row} (field : string) (res : QueryResult Row) : R Row :=
  r <- row0 res ;;
  match r with
  | Some x => ret x
  | None => throw (TypeError ("Cannot read properties of undefined (reading '"
                               ++ field ++ "')")%string)
  end.

(** ** Configuration and runtime built-ins *)

Set Warnings "-inexact-float".

Record RiskScannerConfig : Type := {
  priceDropThreshold : float;
  aggregatorErrorRate : float;
  consecutiveFailThreshold : Z
}.

(** [RISK_SCANNER_CONFIG] of riskScanner.js. *)
Definition RISK_SCANNER_CONFIG : RiskScannerConfig := {|
  priceDropThreshold := 0.10;
  aggregatorErrorRate := 0.15;
  consecutiveFailThreshold := 5
|}.

(** The two thresholds aggregatorMonitor.js parses from [process.env]. *)
Record MonitorConfig : Type := {
  ERROR_RATE_THRESHOLD : float;
  QUEUE_LENGTH_THRESHOLD : Z
}.

Definition DEFAULT_MONITOR_CONFIG : MonitorConfig := {|
  ERROR_RATE_THRESHOLD := 0.1;
  QUEUE_LENGTH_THRESHOLD := 20
|}.

(** [Number.prototype.toFixed], the rendering of a number inside a template
    string, and [new Date(ms).toISOString()], which throws a RangeError on
    an invalid date. *)
Record Builtins : Type := {
  toFixed : nat -> float -> string;
  numberToString : float -> string;
  toISOString : float -> Completion string
}.

Record Trade : Type := {
  userId : Z;
  pair : string;
  trade_amount : string;
  status : string;
  trade_slippage : string;
  txSignature : string;
  time : string
}.

Record Stats : Type := {
  aggregator_tps : string;
  trade_error_rate : float;
  avgLatencyMs : float;
  queueLength : Z;
  vault_conflict_count : Z;
  rpcHealthy : bool;
  meltdownWarnings : bool;
  recentTrades : list Trade
}.

Definition LF : string := String (Ascii.ascii_of_nat 10) EmptyString.

Definition BTC_PRICE_URL : string :=
  "https://api.coingecko.com/api/v3/simple/price?ids=bitcoin&vs_currencies=usd".

(** [feedRes.rows.map(f)] with a callback that may throw. *)
Fixpoint map_rows {A B} (f : A -> R B) (l : list A) : R (list B) :=
  match l with
  | [] => ret []
  | x :: rest =>
      y <- f x ;;
      ys <- map_rows f rest ;;
      ret (y :: ys)
  end.

(** ** The trading state store and the gate *)

Record TradingState : Type := {
  enabled : bool;
  reason : string;
  changedAt : Z;
  changedBy : Actor
}.

(** Modelled from the spec: [src/risk/risk_control.js], which holds the
    trading state, is not among the sources; only its callers are.  Spec
    section 4.3, [pause(reason, actor)]: idempotent on the flag; when the
    existing pause was set by an admin, an automatic actor overwrites neither
    reason nor timestamp; in every other case the record takes the reason,
    time and actor of the most recent pause. *)
Definition pause (why : string) (actor : Actor) (at_time : Z) (st : TradingState)
  : TradingState :=
  match enabled st, changedBy st, actor with
  | false, ADMIN _, SYSTEM => st
  | _, _, _ =>
      {| enabled := false; reason := why; changedAt := at_time; changedBy := actor |}
  end.

(** Modelled from the spec: [resumeGlobalTrading()] is called without an
    argument, so whether it resumes cannot depend on who asks; section 4.3
    says it sets [enabled = true].  The record keeps the entry point's
    caller as the actor of the transition. *)
Definition reopen (actor : Actor) (at_time : Z) (st : TradingState) : TradingState :=
  {| enabled := true; reason := ""; changedAt := at_time; changedBy := actor |}.

Inductive StoreError : Type := PermissionDenied.

(** Modelled from the spec: section 4.3, [resume(actor)], in the spec's own
    words, for comparison with what the [resume_ai] route does: a
    non-privileged actor lifting an admin-set pause is refused and the state
    stays as it is. *)
Definition resume_spec (privileged : bool) (actor : Actor) (at_time : Z)
  (st : TradingState) : TradingState + StoreError :=
  match enabled st, changedBy st with
  | false, ADMIN _ =>
      if privileged then inl (reopen actor at_time st) else inr PermissionDenied
  | _, _ => inl (reopen actor at_time st)
  end.

(** The state the program acts on: the advisory lock 12345 (its holder and
    how many times that session took it) and the trading state. *)
Record World : Type := {
  gate : option (Session * nat);
  trading : TradingState
}.

(** Computations that also act on the world.  The events of a run are its
    third component, newest first. *)
Definition M (A : Type) : Type := Env -> World -> Completion A * World * list Event.

#[export] Instance M_monad : JsMonad M := {|
  ret := fun A a _ w => (Normal a, w, []);
  bind := fun A B (c : M A) (k : A -> M B) env w =>
    match c env w with
    | (Normal a, w1, t1) => let '(r, w2, t2) := k a env w1 in (r, w2, t2 ++ t1)
    | (Throw e, w1, t1) => (Throw e, w1, t1)
    end;
  throw := fun A e _ w => (Throw e, w, []);
  attempt := fun A (c : M A) env w => let '(r, w1, t) := c env w in (Normal r, w1, t)
|}.

Definition completion {A} (r : Completion A * World * list Event) : Completion A :=
  fst (fst r).
Definition final {A} (r : Completion A * World * list Event) : World :=
  snd (fst r).
Definition events {A} (r : Completion A * World * list Event) : list Event :=
  snd r.

Definition liftR {A} (c : R A) : M A :=
  fun env w => let (r, t) := c env in (r, w, t).

(** The lock manager's answer to [pg_try_advisory_lock]: it never waits; a
    session that holds the lock may take it again. *)
Definition acquire (s : Session) (g : option (Session * nat))
  : bool * option (Session * nat) :=
  match g with
  | None => (true, Some (s, 1%nat))
  | Some (h, n) => if Nat.eqb h s then (true, Some (h, S n)) else (false, g)
  end.

(** [pg_advisory_unlock] gives back one hold of the session, and does
    nothing to a lock another session holds. *)
Definition release (s : Session) (g : option (Session * nat)) : option (Session * nat) :=
  match g with
  | Some (h, n) =>
      if Nat.eqb h s then
        match n with
        | S (S k) => Some (h, S k)
        | _ => None
        end
      else g
  | None => None
  end.

(** [SELECT pg_try_advisory_lock(12345) AS got_lock] *)
Definition pg_try_advisory_lock (s : Session) : M bool :=
  fun _ w =>
    let (got_lock, g) := acquire s (gate w) in
    (Normal got_lock, {| gate := g; trading := trading w |}, [EvTryLock s got_lock]).

(** [SELECT pg_advisory_unlock(12345)] *)
Definition pg_advisory_unlock (s : Session) : M unit :=
  fun _ w =>
    (Normal tt, {| gate := release s (gate w); trading := trading w |}, [EvUnlock s]).

(** Modelled from the spec: [riskControl.pauseGlobalTrading(reason)].  The
    callers pass the reason only; the acting party is the entry point the
    call comes from.  A rejected write leaves the state as it was. *)
Definition pauseGlobalTrading (actor : Actor) (why : string) : M unit :=
  fun env w =>
    match store_write env with
    | Throw e => (Throw e, w, [])
    | Normal _ =>
        (Normal tt,
         {| gate := gate w; trading := pause why actor (now env) (trading w) |},
         [EvPause actor why])
    end.

(** Modelled from the spec: [riskControl.resumeGlobalTrading()]. *)
Definition resumeGlobalTrading (actor : Actor) : M unit :=
  fun env w =>
    match store_write env with
    | Throw e => (Throw e, w, [])
    | Normal _ =>
        (Normal tt,
         {| gate := gate w; trading := reopen actor (now env) (trading w) |},
         [EvResume actor])
    end.

(** [for (const x of l) f(x)] *)
Fixpoint for_each {A} (l : list A) (f : A -> R unit) : R unit :=
  match l with
  | [] => ret tt
  | x :: rest => f x ;; for_each rest f
  end.

Record Request : Type := { adminId : AdminId; body_reason : option string }.

Record Response : Type := {
  http_status : Z;
  success : bool;
  message : option string;
  error : option string
}.

Section Program.

Variable cfg : RiskScannerConfig.
Variable mon : MonitorConfig.
Variable js : Builtins.

(** *** scripts/riskScanner.js: the market source *)

(** [data.bitcoin.usd] after [fetch] and [response.json()]; any rejection or
    property read on [undefined] is caught, logged, and turned into [null]. *)
Definition fetchCurrentBTCprice : R (option float) :=
  try_catch
    (fetch_json BTC_PRICE_URL feed_btc_usd)
    (fun err =>
       console_error "Error fetching BTC price:" (Some err) ;;
       ret None).

Definition checkMarketConditions : R bool :=
  let meltdownTriggered := false in
  try_catch
    (oldRes <- query Q_btc_price db_btc_price ;;
     if no_rows oldRes then
       console_error "No BTC price data found in global_metrics" None ;;
       ret meltdownTriggered
     else
       r <- row0 oldRes ;;
       let oldPrice :=
         or_default (match r with Some x => old_price x | None => None end) 0 in
       if PrimFloat.leb oldPrice 0 then ret meltdownTriggered
       else
         currentPrice <- fetchCurrentBTCprice ;;
         match currentPrice with
         | None => ret meltdownTriggered
         | Some cur =>
             if falsy cur then ret meltdownTriggered
             else
               let dropPct := PrimFloat.div (PrimFloat.sub oldPrice cur) oldPrice in
               if PrimFloat.leb (priceDropThreshold cfg) dropPct
               then ret true
               else ret meltdownTriggered
         end)
    (fun err =>
       console_error "Error in checkMarketConditions:" (Some err) ;;
       ret meltdownTriggered).

(** *** scripts/aggregatorMonitor.js *)

Definition toTrade (row : TradeRow) : R Trade :=
  match toISOString js (PrimFloat.mul (time_epoch row) 1000) with
  | Throw e => throw e
  | Normal iso =>
      ret {| userId := row_user_id row;
             pair := (from_token row ++ "â†’" ++ to_token row)%string;
             trade_amount := amount row;
             status := row_status row;
             trade_slippage := slippage row;
             txSignature := tx_signature row;
             time := iso |}
  end.

(** riskScanner.js imports [collectAggregatorMetrics] from a module that is
    not among the sources; this is the function of that name in
    aggregatorMonitor.js.  [null] is [None]. *)
Definition collectAggregatorMetrics : R (option Stats) :=
  tpsTry <- attempt (query Q_trades_in_60s db_trades_in_60s) ;;
  match tpsTry with
  | Throw err => console_error "Error fetching TPS:" (Some err) ;; ret None
  | Normal tpsRes =>
    if no_rows tpsRes then
      console_error "No data returned for TPS query" None ;; ret None
    else
      tpsRow <- row0_strict "trades_in_60s" tpsRes ;;
      let tradesIn60 := parseInt_or0 (trades_in_60s tpsRow) in
      let aggregator_tps := toFixed js 2 (PrimFloat.div (num tradesIn60) 60) in
      errorTry <- attempt (query Q_error_rate db_error_rate) ;;
      match errorTry with
      | Throw err => console_error "Error fetching error rate:" (Some err) ;; ret None
      | Normal errorRes =>
        errRow <- row0_strict "fail_count" errorRes ;;
        let failCount := parseInt_or0 (fail_count errRow) in
        let totalCount := parseInt_or0 (total_count errRow) in
        let trade_error_rate :=
          if totalCount >? 0
          then PrimFloat.div (num failCount) (num totalCount)
          else 0%float in
        latencyRes <- query Q_avg_latency db_avg_latency ;;
        latRow <- row0 latencyRes ;;
        let avgLatencyMs :=
          or_default (match latRow with Some x => avg_latency x | None => None end) 0 in
        let queueLen := 0 in
        conflictRes <- query Q_conflicts db_conflicts ;;
        conRow <- row0 conflictRes ;;
        let vault_conflict_count :=
          parseInt_or0 (match conRow with Some x => conflicts x | None => None end) in
        rpcTry <- attempt getLatestBlockhash ;;
        rpcHealthy <-
          match rpcTry with
          | Normal _ => ret true
          | Throw err => console_error "RPC health check failed:" (Some err) ;; ret false
          end ;;
        let meltdownWarnings := false in
        feedRes <- query Q_recent_trades db_recent_trades ;;
        recentTrades <-
          match rows feedRes with
          | None => throw (TypeError "Cannot read properties of undefined (reading 'map')")
          | Some l => map_rows toTrade l
          end ;;
        ret (Some {| aggregator_tps := aggregator_tps;
                     trade_error_rate := trade_error_rate;
                     avgLatencyMs := avgLatencyMs;
                     queueLength := queueLen;
                     vault_conflict_count := vault_conflict_count;
                     rpcHealthy := rpcHealthy;
                     meltdownWarnings := meltdownWarnings;
                     recentTrades := recentTrades |})
      end
  end.

(** The argument array [[stats.aggregator_tps, ...]] is evaluated before the
    INSERT is issued, so a [null] argument throws first. *)
Definition handleAggregatorStats (stats : option Stats) : R unit :=
  match stats with
  | None => throw (TypeError "Cannot read properties of null (reading 'aggregator_tps')")
  | Some s =>
      query (Row := unit) Q_insert_aggregator_stats
        (fun env => match db_insert_aggregator_stats env with
                    | Normal _ => Normal {| rows := Some [] |}
                    | Throw e => Throw e
                    end) ;;
      (if PrimFloat.ltb (ERROR_RATE_THRESHOLD mon) (trade_error_rate s) then
         sendAdminGlobalAlert
           (LF ++ "âš ï¸ *Aggregator High Error Rate* "
               ++ toFixed js 1 (PrimFloat.mul (trade_error_rate s) 100) ++ "%" ++ LF
               ++ "Check aggregator logs immediately." ++ LF)%string
       else ret tt) ;;
      (if queueLength s >? QUEUE_LENGTH_THRESHOLD mon then
         sendAdminGlobalAlert
           (LF ++ "ðŸš¨ *Aggregator Queue Backlog* => "
               ++ numberToString js (num (queueLength s)) ++ " pending trades" ++ LF
               ++ "Potential slowdown or concurrency issues." ++ LF)%string
       else ret tt) ;;
      (if negb (rpcHealthy s) then
         sendAdminGlobalAlert
           (LF ++ "âŒ *Solana RPC Unhealthy*" ++ LF
               ++ "Check node status or switch endpoints." ++ LF)%string
       else ret tt)
  end.

Definition runAggregatorMonitor : R unit :=
  stats <- collectAggregatorMetrics ;;
  handleAggregatorStats stats.

(** *** scripts/riskScanner.js: the aggregator and failure-burst sources *)

(** [checkAggregatorMetricsForMeltdown], with the imported
    [collectAggregatorMetrics] as the argument [collect]. *)
Definition checkAggregatorMetricsForMeltdownWith (collect : R (option Stats)) : R bool :=
  stats <- collect ;;
  match stats with
  | None => throw (TypeError "Cannot read properties of null (reading 'trade_error_rate')")
  | Some s =>
      if PrimFloat.ltb (aggregatorErrorRate cfg) (trade_error_rate s) then ret true
      else if meltdownWarnings s then ret true
      else ret false
  end.

Definition checkAggregatorMetricsForMeltdown : R bool :=
  checkAggregatorMetricsForMeltdownWith collectAggregatorMetrics.

Definition circuitBreakerChecks : R bool :=
  failRes <- query Q_fail_count db_fail_count ;;
  r <- row0 failRes ;;
  let failCount :=
    parseInt_or0 (match r with Some x => burst_fail_count x | None => None end) in
  if failCount >=? consecutiveFailThreshold cfg then ret true
  else ret false.

(** *** scripts/riskScanner.js: the cycle *)

Definition MELTDOWN_REASON : string :=
  "Flash Crash / aggregator meltdown / circuit breaker".

Definition meltdownDetectedAction (why : string) : M unit :=
  pauseGlobalTrading SYSTEM ("riskScanner meltdown => " ++ why)%string ;;
  liftR (sendAdminGlobalAlert
           (LF ++ "ðŸš¨ *Meltdown Detected*" ++ LF
               ++ "Reason: " ++ why ++ LF ++ LF
               ++ "Auto-freeze trading has been enabled." ++ LF)%string).

(** The body of the [try] block of [runRiskScanner]. *)
Definition runRiskScanner_try : M unit :=
  let meltdownTriggered := false in
  marketMeltdown <- liftR checkMarketConditions ;;
  let meltdownTriggered := if marketMeltdown : bool then true else meltdownTriggered in
  aggregatorMeltdown <- liftR checkAggregatorMetricsForMeltdown ;;
  let meltdownTriggered := if aggregatorMeltdown : bool then true else meltdownTriggered in
  circuitTripped <- liftR circuitBreakerChecks ;;
  let meltdownTriggered := if circuitTripped : bool then true else meltdownTriggered in
  if meltdownTriggered then meltdownDetectedAction MELTDOWN_REASON
  else ret tt.

Definition runRiskScanner (self : Session) : M unit :=
  got_lock <- pg_try_advisory_lock self ;;
  if negb got_lock then
    liftR (event (EvConsoleLog "Another instance of riskScanner is already running."))
  else
    try_finally runRiskScanner_try (pg_advisory_unlock self).

(** *** src/admin/admin.js *)

Definition logAdminAction (admin : AdminId) (action details : string) : R unit :=
  try_catch
    (query (Row := unit) (Q_insert_admin_logs admin action details)
       (fun env => match db_insert_admin_logs env with
                   | Normal _ => Normal {| rows := Some [] |}
                   | Throw e => Throw e
                   end) ;;
     ret tt)
    (fun err => console_error "Error logging admin action:" (Some err)).

Definition getAdminRole (userId : AdminId) : R string :=
  res <- query (Q_admin_role userId) (fun env => db_admin_role env userId) ;;
  match rows res with
  | None => throw (TypeError "Cannot read properties of undefined (reading 'length')")
  | Some [] => ret "none"
  | Some (r :: _) => ret (role r)
  end.

(** [reason = 'Manual Admin Pause'] is the default of an omitted argument. *)
Definition forceMarketPause (admin : AdminId) (reason_arg : option string) : M unit :=
  let why := match reason_arg with Some r => r | None => "Manual Admin Pause" end in
  liftR (logAdminAction admin "forceMarketPause" why) ;;
  pauseGlobalTrading (ADMIN admin) why ;;
  superadmins <- liftR (query Q_superadmins db_superadmins) ;;
  match rows superadmins with
  | None => throw (TypeError "superadmins.rows is not iterable")
  | Some l =>
      liftR (for_each l (fun a =>
               sendAdminNotification (user_id a) ("Market paused: " ++ why)%string))
  end.

(** *** src/admin/adminWebApp.js: the control-center routes *)

Definition pause_ai (req : Request) : M Response :=
  adminRole <- liftR (getAdminRole (adminId req)) ;;
  if negb (String.eqb adminRole "superadmin") then
    ret {| http_status := 403; success := false; message := None;
           error := Some "Permission denied" |}
  else
    let why := or_default_string (body_reason req) "Manual Admin Pause" in
    pauseGlobalTrading (ADMIN (adminId req)) why ;;
    ret {| http_status := 200; success := true;
           message := Some "AI Trading is paused globally."; error := None |}.

Definition resume_ai (req : Request) : M Response :=
  try_catch
    (resumeGlobalTrading (ADMIN (adminId req)) ;;
     ret {| http_status := 200; success := true;
            message := Some "AI Trading resumed globally."; error := None |})
    (fun _ =>
       ret {| http_status := 500; success := false; message := None;
              error := Some "An unexpected error occurred. Please try again later." |}).

(** The cron callback of [scheduleRiskScanner]. *)
Definition riskScannerTick (self : Session) : M unit :=
  try_catch
    (liftR (event (EvConsoleLog "[riskScanner] Checking meltdown or circuit-breakers...")) ;;
     runRiskScanner self)
    (fun err => liftR (console_error "Error in risk scanner cron job:" (Some err))).

End Program.

(** ** Properties of traces *)

(** Events that change the trading state. *)
Definition is_mutation (e : Event) : bool :=
  match e with
  | EvPause _ _ | EvResume _ => true
  | _ => false
  end.

Definition is_gate_event (e : Event) : bool :=
  match e with
  | EvTryLock _ _ | EvUnlock _ => true
  | _ => false
  end.

Definition not_gate_event (e : Event) : bool := negb (is_gate_event e).

(** Events of reading collaborators and of logging to the console. *)
Definition is_probe (e : Event) : bool :=
  match e with
  | EvQuery _ | EvFetch _ | EvRpcProbe | EvConsoleError _ _ => true
  | _ => false
  end.

Definition is_alert (e : Event) : bool :=
  match e with
  | EvGlobalAlert _ | EvAdminNotification _ _ => true
  | _ => false
  end.

(** Whether session [s], which did not hold the gate before, holds it after
    the events [t] (newest first). *)
Fixpoint holds (s : Session) (t : list Event) : bool :=
  match t with
  | [] => false
  | EvTryLock s' true :: older => if Nat.eqb s' s then true else holds s older
  | EvUnlock s' :: older => if Nat.eqb s' s then false else holds s older
  | _ :: older => holds s older
  end.

(** Every change of the trading state in [t] happens while [s] holds the gate. *)
Fixpoint mutations_under_gate (s : Session) (t : list Event) : bool :=
  match t with
  | [] => true
  | e :: older =>
      (if is_mutation e then holds s older else true) && mutations_under_gate s older
  end.

(** All events a read-only computation emits satisfy [P]. *)
Definition emits_only (P : Event -> bool) {A} (c : R A) : Prop :=
  forall env, forallb P (snd (c env)) = true.

(** The reasons list of a meltdown decision in the spec's words (section
    4.2): the reasons of the verdicts that triggered, in the order market,
    aggregator, failure burst. *)
Definition spec_reasons (market aggregator burst : string) (m a f : bool) : list string :=
  (if m then [market] else []) ++ (if a then [aggregator] else [])
    ++ (if f then [burst] else []).

(** The reasons a cycle reported: those given to [pauseGlobalTrading]. *)
Definition reported_reasons (t : list Event) : list string :=
  flat_map (fun e => match e with EvPause _ why => [why] | _ => [] end) t.

(** What the three sources of a cycle, evaluated in the order of
    [runRiskScanner], come to: [meltdownTriggered], or the error that ended
    the evaluation. *)
Definition decision (cfg : RiskScannerConfig) (js : Builtins) (env : Env)
  : Completion bool :=
  match fst (checkMarketConditions cfg env) with
  | Throw e => Throw e
  | Normal m =>
      match fst (checkAggregatorMetricsForMeltdown cfg js env) with
      | Throw e => Throw e
      | Normal a =>
          match fst (circuitBreakerChecks cfg env) with
          | Throw e => Throw e
          | Normal f => Normal (if f then true else if a then true else if m then true else false)
          end
      end
  end.

Definition PAUSE_REASON : string := ("riskScanner meltdown => " ++ MELTDOWN_REASON)%string.

Definition MELTDOWN_ALERT : string :=
  (LF ++ "ðŸš¨ *Meltdown Detected*" ++ LF ++ "Reason: " ++ MELTDOWN_REASON ++ LF ++ LF
      ++ "Auto-freeze trading has been enabled." ++ LF)%string.

(** ** Concrete inputs *)

Definition ok_rows {Row} (l : list Row) : Completion (QueryResult Row) :=
  Normal {| rows := Some l |}.

Definition stub_builtins : Builtins :=
  {| toFixed := fun _ _ => "0.00";
     numberToString := fun _ => "0";
     toISOString := fun _ => Normal "1970-01-01T00:00:00.000Z" |}.

(** One superadmin (id 1); every query answers unless the scenario says
    otherwise. *)
Definition scenario
  (price : Completion (QueryResult PriceRow))
  (feed : Completion (option float))
  (tps : Completion (QueryResult TpsRow))
  (err : Completion (QueryResult ErrorRateRow))
  (fails : Completion (QueryResult FailCountRow))
  (store : Completion unit) : Env := {|
  now := 1000;
  db_btc_price := price;
  feed_btc_usd := feed;
  db_trades_in_60s := tps;
  db_error_rate := err;
  db_avg_latency := ok_rows [{| avg_latency := Some 35.5%float |}];
  db_conflicts := ok_rows [{| conflicts := Some 0 |}];
  rpc_latest_blockhash := Normal tt;
  db_recent_trades := ok_rows [];
  db_fail_count := fails;
  db_insert_aggregator_stats := Normal tt;
  db_insert_admin_logs := Normal tt;
  db_admin_role := fun id =>
    if id =? 1 then ok_rows [{| role := "superadmin" |}] else ok_rows [];
  db_superadmins := ok_rows [{| user_id := 1 |}];
  store_write := store
|}.

Definition price_100 := ok_rows [{| old_price := Some 100%float |}].
Definition tps_120 := ok_rows [{| trades_in_60s := Some 120 |}].
Definition errors_1_of_20 := ok_rows [{| fail_count := Some 1; total_count := Some 20 |}].
Definition fails_2 := ok_rows [{| burst_fail_count := Some 2 |}].
Definition fails_7 := ok_rows [{| burst_fail_count := Some 7 |}].

(** Nothing triggers. *)
Definition calm_env : Env :=
  scenario price_100 (Normal (Some 99%float)) tps_120 errors_1_of_20 fails_2 (Normal tt).

(** The price fell from 100 to 85; the other sources are quiet. *)
Definition market_only_env : Env :=
  scenario price_100 (Normal (Some 85%float)) tps_120 errors_1_of_20 fails_2 (Normal tt).

(** Seven failed executions in the last two minutes; the other sources are quiet. *)
Definition burst_only_env : Env :=
  scenario price_100 (Normal (Some 99%float)) tps_120 errors_1_of_20 fails_7 (Normal tt).

(** The feed answers with a price of zero. *)
Definition feed_zero_env : Env :=
  scenario price_100 (Normal (Some 0%float)) tps_120 errors_1_of_20 fails_2 (Normal tt).

(** The feed cannot be reached. *)
Definition feed_down_env : Env :=
  scenario price_100 (Throw (Error "request to api.coingecko.com failed"))
    tps_120 errors_1_of_20 fails_2 (Normal tt).

(** No price was ever recorded. *)
Definition no_price_env : Env :=
  scenario (ok_rows []) (Normal (Some 85%float)) tps_120 errors_1_of_20 fails_2 (Normal tt).

(** The last recorded price is zero. *)
Definition zero_price_env : Env :=
  scenario (ok_rows [{| old_price := Some 0%float |}]) (Normal (Some 85%float))
    tps_120 errors_1_of_20 fails_2 (Normal tt).

(** 3 failures out of 20 executions: an error rate equal to the 0.15 threshold. *)
Definition rate_at_threshold_env : Env :=
  scenario price_100 (Normal (Some 99%float)) tps_120
    (ok_rows [{| fail_count := Some 3; total_count := Some 20 |}]) fails_2 (Normal tt).

(** No execution in the window. *)
Definition idle_window_env : Env :=
  scenario price_100 (Normal (Some 99%float)) tps_120
    (ok_rows [{| fail_count := Some 0; total_count := Some 0 |}]) fails_2 (Normal tt).

(** The trades-per-second query is rejected while seven executions failed. *)
Definition tps_rejected_env : Env :=
  scenario price_100 (Normal (Some 99%float)) (Throw (Error "Connection terminated"))
    errors_1_of_20 fails_7 (Normal tt).

(** The price fell from 100 to 85 and the failure-count query is rejected. *)
Definition burst_query_rejected_env : Env :=
  scenario price_100 (Normal (Some 85%float)) tps_120 errors_1_of_20
    (Throw (Error "Connection terminated")) (Normal tt).

(** The error-rate query is rejected. *)
Definition error_rate_rejected_env : Env :=
  scenario price_100 (Normal (Some 99%float)) tps_120
    (Throw (Error "Connection terminated")) fails_2 (Normal tt).

(** The error-rate query answers with no row. *)
Definition error_rate_no_rows_env : Env :=
  scenario price_100 (Normal (Some 99%float)) tps_120 (ok_rows []) fails_2 (Normal tt).

(** The stats record collected in [idle_window_env]. *)
Definition idle_window_stats : Stats := {|
  aggregator_tps := "0.00";
  trade_error_rate := 0%float;
  avgLatencyMs := 35.5%float;
  queueLength := 0;
  vault_conflict_count := 0;
  rpcHealthy := true;
  meltdownWarnings := false;
  recentTrades := []
|}.

(** The stats record collected in [rate_at_threshold_env]. *)
Definition at_threshold_stats : Stats := {|
  aggregator_tps := "0.00";
  trade_error_rate := (num 3 / num 20)%float;
  avgLatencyMs := 35.5%float;
  queueLength := 0;
  vault_conflict_count := 0;
  rpcHealthy := true;
  meltdownWarnings := false;
  recentTrades := []
|}.

(** A stats record of a quiet window in which the aggregator has raised its
    meltdown warning. *)
Definition warning_stats : Stats := {|
  aggregator_tps := "0.00";
  trade_error_rate := 0%float;
  avgLatencyMs := 35.5%float;
  queueLength := 0;
  vault_conflict_count := 0;
  rpcHealthy := true;
  meltdownWarnings := true;
  recentTrades := []
|}.

(** A collector that reports [warning_stats]. *)
Definition warning_collect : R (option Stats) := ret (Some warning_stats).

Definition trading_open : TradingState :=
  {| enabled := true; reason := ""; changedAt := 0; changedBy := SYSTEM |}.

Definition paused_by_admin : TradingState :=
  {| enabled := false; reason := "maintenance"; changedAt := 900; changedBy := ADMIN 1 |}.

Definition paused_by_system : TradingState :=
  {| enabled := false; reason := "riskScanner meltdown => earlier";
     changedAt := 900; changedBy := SYSTEM |}.

Definition idle_world : World := {| gate := None; trading := trading_open |}.

(** Another scanner instance (session 2) is in the middle of its cycle. *)
Definition busy_world : World := {| gate := Some (2%nat, 1%nat); trading := trading_open |}.

Definition admin_paused_world : World := {| gate := None; trading := paused_by_admin |}.

(** ** Further predicates on events and further inputs *)

Definition is_superadmin_lookup (e : Event) : bool :=
  match e with
  | EvQuery Q_superadmins => true
  | _ => false
  end.

Definition not_superadmin_lookup (e : Event) : bool := negb (is_superadmin_lookup e).

(** The failure-count query answers with no row. *)
Definition no_fail_rows_env : Env :=
  scenario price_100 (Normal (Some 99%float)) tps_120 errors_1_of_20 (ok_rows [])
    (Normal tt).

(** The store rejects every write. *)
Definition store_down_env : Env :=
  scenario price_100 (Normal (Some 99%float)) tps_120 errors_1_of_20 fails_2
    (Throw (Error "could not write trading state")).

(** One notification per superadmin row, in the order of the rows. *)
Definition notifications_for (l : list SuperadminRow) (msg : string) : list Event :=
  map (fun a => EvAdminNotification (user_id a) msg) l.

(** *** scripts/aggregatorMonitor.js: the thresholds read when the module loads

    [Some x] is the number [parseFloat] (or [parseInt]) reads from a
    variable of [process.env] that is set and not empty; [None] stands for
    an unset or empty variable, which falls back to the default.  (A queue
    variable that [parseInt] reads as NaN has no counterpart here.) *)
Definition loadMonitorConfig (error_rate_variable : option float)
  (queue_length_variable : option Z) : Completion MonitorConfig :=
  let error_rate := match error_rate_variable with Some x => x | None => 0.1%float end in
  let queue_length := match queue_length_variable with Some n => n | None => 20 end in
  if PrimFloat.ltb error_rate 0 || PrimFloat.ltb 1 error_rate then
    Throw (Error "ERROR_RATE_THRESHOLD must be between 0 and 1.")
  else if queue_length <? 0 then
    Throw (Error "QUEUE_LENGTH_THRESHOLD must be a positive integer.")
  else
    Normal {| ERROR_RATE_THRESHOLD := error_rate; QUEUE_LENGTH_THRESHOLD := queue_length |}.

(** The texts of the monitor's alerts. *)
Definition HIGH_ERROR_RATE_ALERT (js : Builtins) (rate : float) : string :=
  (LF ++ "âš ï¸ *Aggregator High Error Rate* "
      ++ toFixed js 1 (PrimFloat.mul rate 100) ++ "%" ++ LF
      ++ "Check aggregator logs immediately." ++ LF)%string.

Definition RPC_UNHEALTHY_ALERT : string :=
  (LF ++ "âŒ *Solana RPC Unhealthy*" ++ LF
      ++ "Check node status or switch endpoints." ++ LF)%string.

(** The cron callback of [scheduleAggregatorMonitor]. *)
Definition aggregatorMonitorTick (mon : MonitorConfig) (js : Builtins) : R unit :=
  try_catch (runAggregatorMonitor mon js)
    (fun err => console_error "Error in aggregator monitor cron job:" (Some err)).

(** *** src/admin/adminLogs.js *)
Module AdminLogs.

Definition logAdminAction (admin : AdminId) (action details : string) : R unit :=
  try_catch
    (query (Row := unit) (Q_insert_admin_logs admin action details)
       (fun env => match db_insert_admin_logs env with
                   | Normal _ => Normal {| rows := Some [] |}
                   | Throw e => Throw e
                   end) ;;
     if (action =? "pauseTrading")%string || (action =? "setCircuitBreaker")%string then
       sendAdminGlobalAlert ("Critical action logged: " ++ action)%string
     else ret tt)
    (fun err => console_error "Error logging admin action:" (Some err)).

End AdminLogs.

(** *** src/admin/adminWebApp.js: GET /admin_webapp/metrics

    adminWebApp.js and admin.js import [collectAggregatorMetrics] from
    modules that are not among the sources; the functions below take the
    collector they call as the argument [collect]. *)
Module AdminWebApp.

(** The body of a JSON answer of the metrics route; [data] is [Some None]
    for [data: null]. *)
Record MetricsResponse : Type := {
  metrics_status : Z;
  metrics_success : bool;
  data : option (option Stats);
  metrics_error : option string
}.

Definition metrics (collect : R (option Stats)) : R MetricsResponse :=
  try_catch
    (stats <- collect ;;
     ret {| metrics_status := 200; metrics_success := true; data := Some stats;
            metrics_error := None |})
    (fun _ =>
       ret {| metrics_status := 500; metrics_success := false; data := None;
              metrics_error := Some "An unexpected error occurred. Please try again later." |}).

End AdminWebApp.

(** *** src/admin/admin.js: the system report *)
Definition generateSystemReport (js : Builtins) (collect : R (option Stats)) : R string :=
  stats <- collect ;;
  match stats with
  | None => throw (TypeError "Cannot read properties of null (reading 'aggregator_tps')")
  | Some s =>
      ret (LF ++ "System Report:" ++ LF
              ++ "TPS: " ++ aggregator_tps s ++ LF
              ++ "ErrorRate: " ++ toFixed js 1 (PrimFloat.mul (trade_error_rate s) 100) ++ "%" ++ LF
              ++ "Avg Latency: " ++ numberToString js (avgLatencyMs s) ++ " ms" ++ LF
              ++ "QueueLength: " ++ numberToString js (num (queueLength s)) ++ LF
              ++ "  ")%string
  end.

(** The RPC probe fails; everything else answers. *)
Definition rpc_down_env : Env := {|
  now := 1000;
  db_btc_price := price_100;
  feed_btc_usd := Normal (Some 99%float);
  db_trades_in_60s := tps_120;
  db_error_rate := ok_rows [{| fail_count := Some 5; total_count := Some 20 |}];
  db_avg_latency := ok_rows [{| avg_latency := Some 35.5%float |}];
  db_conflicts := ok_rows [{| conflicts := Some 0 |}];
  rpc_latest_blockhash := Throw (Error "failed to get recent blockhash");
  db_recent_trades := ok_rows [];
  db_fail_count := fails_2;
  db_insert_aggregator_stats := Normal tt;
  db_insert_admin_logs := Normal tt;
  db_admin_role := fun _ => ok_rows [];
  db_superadmins := ok_rows [];
  store_write := Normal tt
|}.

(** The stats record collected in [rpc_down_env]. *)
Definition rpc_down_stats : Stats := {|
  aggregator_tps := "0.00";
  trade_error_rate := (num 5 / num 20)%float;
  avgLatencyMs := 35.5%float;
  queueLength := 0;
  vault_conflict_count := 0;
  rpcHealthy := false;
  meltdownWarnings := false;
  recentTrades := []
|}.

(** As [rpc_down_env], and the INSERT into aggregator_stats is rejected. *)
Definition stats_insert_rejected_env : Env := {|
  now := 1000;
  db_btc_price := price_100;
  feed_btc_usd := Normal (Some 99%float);
  db_trades_in_60s := tps_120;
  db_error_rate := ok_rows [{| fail_count := Some 5; total_count := Some 20 |}];
  db_avg_latency := ok_rows [{| avg_latency := Some 35.5%float |}];
  db_conflicts := ok_rows [{| conflicts := Some 0 |}];
  rpc_latest_blockhash := Throw (Error "failed to get recent blockhash");
  db_recent_trades := ok_rows [];
  db_fail_count := fails_2;
  db_insert_aggregator_stats := Throw (Error "relation aggregator_stats does not exist");
  db_insert_admin_logs := Normal tt;
  db_admin_role := fun _ => ok_rows [];
  db_superadmins := ok_rows [];
  store_write := Normal tt
|}.

(** ** Statements, schedules and the rest of the admin code

    The functions below also write to the database and install cron jobs.
    A statement is answered by the database of the run ([Db]): accepted, or
    rejected with an error; the effects of a run list what was asked, newest
    first. *)

(** A JavaScript value bound to a placeholder. *)
Inductive Param : Type :=
| PText (s : string)
| PInt (z : Z)
| PBool (b : bool).

(** [!!v] *)
Definition truthy_param (v : Param) : bool :=
  match v with
  | PText EmptyString => false
  | PText _ => true
  | PInt z => negb (z =? 0)
  | PBool b => b
  end.

Inductive Statement : Type :=
| S_begin
| S_commit
| S_rollback
| S_upsert_global_setting (key value : string)
| S_upsert_admin_role (target : AdminId) (new_role : string)
| S_update_risk_rating (rating : string) (user : Z)
| S_select_due_reports
| S_advance_report (report : Z).

(** The callbacks handed to [cron.schedule]: [RiskScannerJob] stands for
    [riskScannerTick], [AggregatorMonitorJob] for [aggregatorMonitorTick]. *)
Inductive CronJob : Type := RiskScannerJob | AggregatorMonitorJob.

Inductive Effect : Type :=
| Base (e : Event)
| Exec (s : Statement)
| SqlText (text : string) (params : list Param)
| CronSchedule (pattern : string) (job : CronJob) (timezone : string).

Record ReportRow : Type := { report_id : Z; report_admin_id : AdminId }.

Record LogRow : Type := {
  log_id : Z;
  log_admin_user : Z;
  log_action : string;
  log_details : string;
  log_created_at : string
}.

Record Db : Type := {
  base_env : Env;
  answer : Statement -> Completion unit;
  due_reports : Completion (QueryResult ReportRow);
  admin_logs : string -> list Param -> Completion (QueryResult LogRow)
}.

Definition P (A : Type) : Type := Db -> World -> Completion A * World * list Effect.

#[export] Instance P_monad : JsMonad P := {|
  ret := fun A a _ w => (Normal a, w, []);
  bind := fun A B (c : P A) (k : A -> P B) db w =>
    match c db w with
    | (Normal a, w1, t1) => let '(r, w2, t2) := k a db w1 in (r, w2, t2 ++ t1)
    | (Throw e, w1, t1) => (Throw e, w1, t1)
    end;
  throw := fun A e _ w => (Throw e, w, []);
  attempt := fun A (c : P A) db w => let '(r, w1, t) := c db w in (Normal r, w1, t)
|}.

Definition effects {A} (r : Completion A * World * list Effect) : list Effect := snd r.
Definition outcome {A} (r : Completion A * World * list Effect) : Completion A := fst (fst r).

Definition ofR {A} (c : R A) : P A :=
  fun db w => let (r, t) := c (base_env db) in (r, w, map Base t).

Definition ofM {A} (c : M A) : P A :=
  fun db w => let '(r, w1, t) := c (base_env db) w in (r, w1, map Base t).

(** [await query(statement, params)] for a statement that returns nothing
    the caller reads. *)
Definition exec (s : Statement) : P unit :=
  fun db w => (answer db s, w, [Exec s]).

(** [await query(text, params)] on the admin_logs table. *)
Definition select_admin_logs (text : string) (params : list Param)
  : P (QueryResult LogRow) :=
  fun db w => (admin_logs db text params, w, [SqlText text params]).

(** The SELECT of the report schedules that are due. *)
Definition select_due_reports : P (QueryResult ReportRow) :=
  fun db w => (due_reports db, w, [Exec S_select_due_reports]).

(** The statements of a run, oldest first. *)
Definition statements (t : list Effect) : list Statement :=
  flat_map (fun e => match e with Exec s => [s] | _ => [] end) (rev t).

Definition is_schedule (e : Effect) : bool :=
  match e with CronSchedule _ _ _ => true | _ => false end.

(** [l.includes(x)] on an array of strings. *)
Definition includes (l : list string) (x : string) : bool :=
  existsb (String.eqb x) l.

(** The decimal digits of an index inside a template string. *)
Definition show_nat (n : nat) : string :=
  DecimalString.NilZero.string_of_uint (Nat.to_uint n).

Definition DQ : string := String (Ascii.ascii_of_nat 34) EmptyString.

(** *** scripts/riskScanner.js and scripts/aggregatorMonitor.js: start-up *)

Definition scheduleRiskScanner : P unit :=
  fun _ w => (Normal tt, w, [CronSchedule "*/5 * * * *" RiskScannerJob "UTC"]).

Definition riskScanner_main (cfg : RiskScannerConfig) (js : Builtins) (self : Session)
  : P unit :=
  ofR (event (EvConsoleLog "[riskScanner] Starting risk scanner...")) ;;
  ofM (runRiskScanner cfg js self) ;;
  scheduleRiskScanner.

Definition scheduleAggregatorMonitor : P unit :=
  fun _ w => (Normal tt, w, [CronSchedule "*/5 * * * *" AggregatorMonitorJob "UTC"]).

Definition aggregatorMonitor_main (mon : MonitorConfig) (js : Builtins) : P unit :=
  ofR (event (EvConsoleLog "[aggregatorMonitor] Starting aggregator monitor...")) ;;
  ofR (runAggregatorMonitor mon js) ;;
  scheduleAggregatorMonitor.

(** *** src/admin/adminLogs.js: searchAdminLogs *)

Record SearchFilters : Type := {
  filter_action : option Param;
  filter_adminUser : option Param;
  filter_since : option Param;
  filter_until : option Param
}.

Definition MAX_LIMIT : Z := 100.

(** One [if (filters.x) { whereClauses.push(...); params.push(filters.x); }]
    on the triple [(whereClauses, params, idx)]. *)
Definition push_filter (column_op : string) (value : option Param)
  (st : list string * list Param * nat) : list string * list Param * nat :=
  let '(whereClauses, params, idx) := st in
  match value with
  | Some v =>
      if truthy_param v then
        (whereClauses ++ [(column_op ++ " $" ++ show_nat idx)%string], params ++ [v], S idx)
      else st
  | None => st
  end.

(** The text and the parameters [searchAdminLogs] hands to [query]. *)
Definition searchAdminLogs_query (filters : SearchFilters) (limit_arg : option Z)
  : string * list Param :=
  let limit := Z.min (match limit_arg with Some l => l | None => 50 end) MAX_LIMIT in
  let st := ([], [], 1%nat) in
  let st := push_filter "action =" (filter_action filters) st in
  let st := push_filter "admin_user =" (filter_adminUser filters) st in
  let st := push_filter "created_at >=" (filter_since filters) st in
  let st := push_filter "created_at <=" (filter_until filters) st in
  let '(whereClauses, params, idx) := st in
  let whereString :=
    match whereClauses with
    | [] => EmptyString
    | _ => String.concat " AND " whereClauses
    end in
  let q :=
    (LF ++ "    SELECT id, admin_user, action, details, created_at" ++ LF
        ++ "    FROM admin_logs" ++ LF
        ++ "    " ++ (match whereString with
                      | EmptyString => EmptyString
                      | _ => "WHERE " ++ whereString
                      end) ++ LF
        ++ "    ORDER BY id DESC" ++ LF
        ++ "    LIMIT $" ++ show_nat idx ++ LF
        ++ "  ")%string in
  (q, params ++ [PInt limit]).

Definition searchAdminLogs (filters : SearchFilters) (limit_arg : option Z)
  : P (option (list LogRow)) :=
  let (q, params) := searchAdminLogs_query filters limit_arg in
  res <- select_admin_logs q params ;;
  ret (rows res).

(** The numbers of the placeholders [$n] of a text, in the order they occur.
    [reading] is the number read so far after a dollar sign. *)
Fixpoint placeholders_from (s : string) (reading : option nat) : list nat :=
  match s with
  | EmptyString => match reading with Some n => [n] | None => [] end
  | String c rest =>
      let code := Ascii.nat_of_ascii c in
      let is_digit := (48 <=? code)%nat && (code <=? 57)%nat in
      match reading with
      | Some n =>
          if is_digit then placeholders_from rest (Some (10 * n + (code - 48))%nat)
          else n :: placeholders_from rest (if (code =? 36)%nat then Some 0%nat else None)
      | None =>
          placeholders_from rest (if (code =? 36)%nat then Some 0%nat else None)
      end
  end.

Definition placeholders (s : string) : list nat := placeholders_from s None.

(** The filter values that are truthy, in the order the function looks at them. *)
Definition present (filters : SearchFilters) : list Param :=
  flat_map (fun v => match v with
                     | Some p => if truthy_param p then [p] else []
                     | None => []
                     end)
    [filter_action filters; filter_adminUser filters; filter_since filters;
     filter_until filters].

(** *** src/admin/admin.js: settings, roles, risk ratings and the daily report *)

(** The statements that end a transaction, and the statements of a list
    that [db] accepts. *)
Definition closes (s : Statement) : bool :=
  match s with S_commit | S_rollback => true | _ => false end.

Definition accepted (db : Db) (sts : list Statement) : list Statement :=
  filter (fun s => negb (is_throw (answer db s))) sts.

Definition setGlobalRiskSetting (admin : AdminId) (key value : string) : P unit :=
  exec S_begin ;;
  try_catch
    (ofR (logAdminAction admin "setGlobalRisk" ("key=" ++ key ++ ", value=" ++ value)%string) ;;
     exec (S_upsert_global_setting key value) ;;
     exec S_commit)
    (fun err => exec S_rollback ;; throw err).

Definition allowedRoles : list string := ["superadmin"; "riskmanager"; "tradermanager"].

Definition setAdminRole (js : Builtins) (admin target : AdminId) (newRole : string)
  : P unit :=
  adminRole <- ofR (getAdminRole admin) ;;
  if negb (adminRole =? "superadmin")%string then
    throw (Error "Only superadmins can set admin roles.")
  else if negb (includes allowedRoles newRole) then
    throw (Error ("Invalid role: " ++ newRole)%string)
  else
    ofR (logAdminAction admin "setAdminRole"
           ("target=" ++ numberToString js (num target) ++ ", role=" ++ newRole)%string) ;;
    exec (S_upsert_admin_role target newRole).

Definition setUserRiskRating (js : Builtins) (admin : AdminId) (user : Z) (rating : string)
  : P unit :=
  ofR (logAdminAction admin "setUserRisk"
         ("userId=" ++ numberToString js (num user) ++ ", rating=" ++ rating)%string) ;;
  exec (S_update_risk_rating rating user).

Fixpoint for_each_report (l : list ReportRow) (f : ReportRow -> P unit) : P unit :=
  match l with
  | [] => ret tt
  | x :: rest => f x ;; for_each_report rest f
  end.

(** The body of the loop of the daily job, for one due report. *)
Definition report_round (js : Builtins) (collect : R (option Stats)) (report : ReportRow)
  : P unit :=
  summary <- ofR (generateSystemReport js collect) ;;
  ofR (sendAdminNotification (report_admin_id report) summary) ;;
  exec (S_advance_report (report_id report)).

(** The callback of [cron.schedule('0 0 * * *', ...)] in admin.js. *)
Definition dailyReportJob (js : Builtins) (collect : R (option Stats)) : P unit :=
  reports <- select_due_reports ;;
  match rows reports with
  | None => throw (TypeError "reports.rows is not iterable")
  | Some l => for_each_report l (report_round js collect)
  end.

(** *** src/admin/complianceTools.js *)
Module ComplianceTools.

Definition validRatings : list string := ["low"; "medium"; "high"; "restricted"].

(** [newRating = 'medium'] is the default of an omitted argument. *)
Definition setUserRiskRating (js : Builtins) (admin : AdminId) (user : Z)
  (rating_arg : option string) : P unit :=
  let newRating := match rating_arg with Some r => r | None => "medium" end in
  try_catch
    ((if negb (includes validRatings newRating) then
        throw (Error ("Invalid risk rating " ++ DQ ++ newRating ++ DQ
                        ++ ". Must be one of: " ++ String.concat ", " validRatings)%string)
      else ret tt) ;;
     exec (S_update_risk_rating newRating user) ;;
     ofR (AdminLogs.logAdminAction admin "setUserRisk"
            ("userId=" ++ numberToString js (num user) ++ ", rating=" ++ newRating)%string))
    (fun err =>
       ofR (console_error "Error setting user risk rating:" (Some err)) ;;
       throw err).

End ComplianceTools.

(** A database that accepts every statement. *)
Definition willing_db (env : Env) : Db := {|
  base_env := env;
  answer := fun _ => Normal tt;
  due_reports := ok_rows [{| report_id := 10; report_admin_id := 1 |};
                          {| report_id := 11; report_admin_id := 4 |}];
  admin_logs := fun _ _ => ok_rows []
|}.

(** A database that rejects the upsert of a global setting. *)
Definition upsert_rejecting_db (env : Env) : Db := {|
  base_env := env;
  answer := fun s =>
    match s with
    | S_upsert_global_setting _ _ => Throw (Error "value too long")
    | _ => Normal tt
    end;
  due_reports := ok_rows [];
  admin_logs := fun _ _ => ok_rows []
|}.

(** Which of the four filters are truthy. *)
Definition filter_shape (filters : SearchFilters) : list bool :=
  map (fun v => match v with Some p => truthy_param p | None => false end)
    [filter_action filters; filter_adminUser filters; filter_since filters;
     filter_until filters].

(** Notifications and report updates of a run, oldest first. *)
Definition deliveries (t : list Effect) : list Effect :=
  filter (fun e => match e with
                   | Base (EvAdminNotification _ _) | Exec (S_advance_report _) => true
                   | _ => false
                   end) (rev t).

(** Filters that are truthy at the given positions. *)
Definition filters_of_shape (shape : list bool) : SearchFilters :=
  let at_position n := if nth n shape false then Some (PBool true) else None in
  {| filter_action := at_position 0%nat; filter_adminUser := at_position 1%nat;
     filter_since := at_position 2%nat; filter_until := at_position 3%nat |}.

(** * Lemmas *)

Unset Implicit Arguments.

(** ** Comparisons of binary64 numbers *)

Lemma Prim2SF_zero : Prim2SF 0%float = S754_zero false.
Proof. reflexivity. Qed.

(** A price above zero passes both guards on the recorded price. *)
Lemma positive_passes_guards (x : float) :
  PrimFloat.ltb 0 x = true -> PrimFloat.leb x 0 = false /\ falsy x = false.
Proof.
  unfold falsy, PrimFloat.is_nan.
  rewrite FloatAxioms.ltb_spec, FloatAxioms.leb_spec, !FloatAxioms.eqb_spec, Prim2SF_zero.
  destruct (Prim2SF x) as [s|s| |s m e]; try destruct s; cbn; try discriminate; auto.
  intros _. split; auto.
  unfold SFeqb, SFcompare. now rewrite Z.compare_refl, Pos.compare_refl.
Qed.

Lemma positive_or_default (x : float) :
  PrimFloat.ltb 0 x = true -> or_default (Some x) 0 = x.
Proof.
  intros H. unfold or_default. now rewrite (proj2 (positive_passes_guards x H)).
Qed.

(** Zero is not above a threshold that is at least zero. *)
Lemma zero_not_above (thr : float) :
  PrimFloat.leb 0 thr = true -> PrimFloat.ltb thr 0 = false.
Proof.
  rewrite FloatAxioms.ltb_spec, FloatAxioms.leb_spec, Prim2SF_zero.
  destruct (Prim2SF thr) as [s|s| |s m e]; try destruct s; cbn; congruence.
Qed.

(** ** Traces *)

Lemma holds_app_probe (s : Session) (q t : list Event) :
  forallb is_probe q = true -> holds s (q ++ t) = holds s t.
Proof.
  induction q as [|e q IH]; simpl; [reflexivity|].
  intros H. apply andb_prop in H. destruct H as [He Hq].
  destruct e; simpl in He; try discriminate; auto.
Qed.

Lemma mutations_under_gate_app_probe (s : Session) (q t : list Event) :
  forallb is_probe q = true ->
  mutations_under_gate s (q ++ t) = mutations_under_gate s t.
Proof.
  induction q as [|e q IH]; simpl; [reflexivity|].
  intros H. apply andb_prop in H. destruct H as [He Hq].
  destruct e; simpl in He; try discriminate; simpl; auto.
Qed.

Lemma filter_alert_app_probe (q t : list Event) :
  forallb is_probe q = true -> filter is_alert (q ++ t) = filter is_alert t.
Proof.
  induction q as [|e q IH]; simpl; [reflexivity|].
  intros H. apply andb_prop in H. destruct H as [He Hq].
  destruct e; simpl in He; try discriminate; simpl; auto.
Qed.

(** ** What read-only computations emit *)

Section Emits.

Variable P : Event -> bool.

Lemma emits_ret {A} (a : A) : emits_only P (ret a).
Proof. intro env. reflexivity. Qed.

Lemma emits_throw {A} (e : JsError) : emits_only P (throw e : R A).
Proof. intro env. reflexivity. Qed.

Lemma emits_bind {A B} (c : R A) (k : A -> R B) :
  emits_only P c -> (forall a, emits_only P (k a)) -> emits_only P (bind c k).
Proof.
  intros Hc Hk env. simpl. specialize (Hc env).
  destruct (c env) as [[a|e] t1]; simpl in *; auto.
  specialize (Hk a env). destruct (k a env) as [r t2]; simpl in *.
  rewrite forallb_app, Hk, Hc. reflexivity.
Qed.

Lemma emits_attempt {A} (c : R A) : emits_only P c -> emits_only P (attempt c).
Proof.
  intros Hc env. simpl. specialize (Hc env). now destruct (c env).
Qed.

Lemma emits_try_catch {A} (c : R A) (h : JsError -> R A) :
  emits_only P c -> (forall e, emits_only P (h e)) -> emits_only P (try_catch c h).
Proof.
  intros Hc Hh. unfold try_catch. apply emits_bind.
  - now apply emits_attempt.
  - intros [a|e]; [apply emits_ret | apply Hh].
Qed.

Lemma emits_event (e : Event) : P e = true -> emits_only P (event e).
Proof. intros H env. simpl. now rewrite H. Qed.

Lemma emits_query {Row} (q : Query) (f : Env -> Completion (QueryResult Row)) :
  P (EvQuery q) = true -> emits_only P (query q f).
Proof. intros H env. simpl. now rewrite H. Qed.

Lemma emits_fetch_json {A} (url : string) (f : Env -> Completion A) :
  P (EvFetch url) = true -> emits_only P (fetch_json url f).
Proof. intros H env. simpl. now rewrite H. Qed.

Lemma emits_getLatestBlockhash : P EvRpcProbe = true -> emits_only P getLatestBlockhash.
Proof. intros H env. simpl. now rewrite H. Qed.

Lemma emits_row0 {Row} (res : QueryResult Row) : emits_only P (row0 res).
Proof. unfold row0. destruct (rows res); [apply emits_ret | apply emits_throw]. Qed.

Lemma emits_row0_strict {Row} (field : string) (res : QueryResult Row) :
  emits_only P (row0_strict field res).
Proof.
  unfold row0_strict. apply emits_bind; [apply emits_row0|].
  intros [x|]; [apply emits_ret | apply emits_throw].
Qed.

Lemma emits_map_rows {A B} (f : A -> R B) (l : list A) :
  (forall x, emits_only P (f x)) -> emits_only P (map_rows f l).
Proof.
  intros Hf. induction l as [|x l IH]; cbn [map_rows].
  - apply emits_ret.
  - apply emits_bind; [apply Hf|]. intros y.
    apply emits_bind; [apply IH|]. intros ys. apply emits_ret.
Qed.

Lemma emits_for_each {A} (l : list A) (f : A -> R unit) :
  (forall x, emits_only P (f x)) -> emits_only P (for_each l f).
Proof.
  intros Hf. induction l as [|x l IH]; cbn [for_each].
  - apply emits_ret.
  - apply emits_bind; [apply Hf | intros _; apply IH].
Qed.

End Emits.

(** Takes a read-only computation apart along its binds and branches. *)
Ltac emits_step :=
  match goal with
  | |- emits_only _ (bind _ _) => apply emits_bind; [|intros]
  | |- emits_only _ (try_catch _ _) => apply emits_try_catch; [|intros]
  | |- emits_only _ (attempt _) => apply emits_attempt
  | |- emits_only _ (ret _) => apply emits_ret
  | |- emits_only _ (throw _) => apply emits_throw
  | |- emits_only _ (query _ _) => apply emits_query; reflexivity
  | |- emits_only _ (fetch_json _ _) => apply emits_fetch_json; reflexivity
  | |- emits_only _ getLatestBlockhash => apply emits_getLatestBlockhash; reflexivity
  | |- emits_only _ (console_error _ _) => apply emits_event; reflexivity
  | |- emits_only _ (event _) => apply emits_event; reflexivity
  | |- emits_only _ (row0_strict _ _) => apply emits_row0_strict
  | |- emits_only _ (row0 _) => apply emits_row0
  | |- emits_only _ (map_rows _ _) => apply emits_map_rows; intros
  | |- emits_only _ (if ?b then _ else _) => destruct b
  | |- emits_only _ (match ?x with _ => _ end) => destruct x
  end.

Ltac emits := cbv zeta; repeat emits_step.

(** The three signal sources only read and log. *)
Lemma checkMarketConditions_probes cfg : emits_only is_probe (checkMarketConditions cfg).
Proof. unfold checkMarketConditions, fetchCurrentBTCprice. emits. Qed.

Lemma collectAggregatorMetrics_probes js : emits_only is_probe (collectAggregatorMetrics js).
Proof. unfold collectAggregatorMetrics, toTrade. emits. Qed.

Lemma checkAggregatorMetricsForMeltdown_probes cfg js :
  emits_only is_probe (checkAggregatorMetricsForMeltdown cfg js).
Proof.
  unfold checkAggregatorMetricsForMeltdown, checkAggregatorMetricsForMeltdownWith.
  apply emits_bind; [apply collectAggregatorMetrics_probes|]. intros. emits.
Qed.

Lemma circuitBreakerChecks_probes cfg : emits_only is_probe (circuitBreakerChecks cfg).
Proof. unfold circuitBreakerChecks. emits. Qed.

(** ** The shape of a cycle *)

Lemma acquire_refused s g g1 : acquire s g = (false, g1) -> g1 = g.
Proof.
  unfold acquire. destruct g as [[h n]|]; [|discriminate].
  destruct (Nat.eqb h s); congruence.
Qed.

(** A cycle whose gate is busy only logs; a cycle that got the gate runs the
    sources, acts on their decision, and gives the gate back. *)
Lemma runRiskScanner_shape cfg js self env w :
  match acquire self (gate w) with
  | (false, _) =>
      runRiskScanner cfg js self env w =
      (Normal tt, {| gate := gate w; trading := trading w |},
       [EvConsoleLog "Another instance of riskScanner is already running.";
        EvTryLock self false])
  | (true, g1) =>
      exists q, forallb is_probe q = true /\
      runRiskScanner cfg js self env w =
      match decision cfg js env with
      | Normal true =>
          match store_write env with
          | Normal _ =>
              (Normal tt,
               {| gate := release self g1;
                  trading := pause PAUSE_REASON SYSTEM (now env) (trading w) |},
               EvUnlock self :: EvGlobalAlert MELTDOWN_ALERT
                 :: EvPause SYSTEM PAUSE_REASON :: q ++ [EvTryLock self true])
          | Throw e =>
              (Throw e, {| gate := release self g1; trading := trading w |},
               EvUnlock self :: q ++ [EvTryLock self true])
          end
      | Normal false =>
          (Normal tt, {| gate := release self g1; trading := trading w |},
           EvUnlock self :: q ++ [EvTryLock self true])
      | Throw e =>
          (Throw e, {| gate := release self g1; trading := trading w |},
           EvUnlock self :: q ++ [EvTryLock self true])
      end
  end.
Proof.
  pose proof (checkMarketConditions_probes cfg env) as P1.
  pose proof (checkAggregatorMetricsForMeltdown_probes cfg js env) as P2.
  pose proof (circuitBreakerChecks_probes cfg env) as P3.
  unfold runRiskScanner, runRiskScanner_try, try_finally, meltdownDetectedAction,
    pauseGlobalTrading, pg_try_advisory_lock, pg_advisory_unlock, liftR, decision.
  cbn [bind attempt ret throw M_monad].
  destruct (acquire self (gate w)) as [[|] g1] eqn:Hacq; cbn [negb];
    [|apply acquire_refused in Hacq; subst g1; reflexivity].
  destruct (checkMarketConditions cfg env) as [[m|e1] t1];
    cbn [fst snd gate trading] in *.
  2:{ exists t1. split; [assumption|]. cbn. reflexivity. }
  destruct (checkAggregatorMetricsForMeltdown cfg js env) as [[a|e2] t2];
    cbn [fst snd gate trading] in *.
  2:{ exists (t2 ++ t1). split; [now rewrite forallb_app, P1, P2|]. cbn.
      now rewrite <- app_assoc. }
  destruct (circuitBreakerChecks cfg env) as [[f|e3] t3];
    cbn [fst snd gate trading] in *.
  2:{ exists (t3 ++ t2 ++ t1). split; [now rewrite !forallb_app, P1, P2, P3|]. cbn.
      now rewrite <- !app_assoc. }
  exists (t3 ++ t2 ++ t1). split; [now rewrite !forallb_app, P1, P2, P3|].
  destruct f, a, m; cbn; destruct (store_write env); cbn;
    rewrite <- ?app_assoc; reflexivity.
Qed.

Lemma reported_reasons_app_probe (q t : list Event) :
  forallb is_probe q = true -> reported_reasons (q ++ t) = reported_reasons t.
Proof.
  induction q as [|e q IH]; simpl; [reflexivity|].
  intros H. apply andb_prop in H. destruct H as [He Hq].
  destruct e; simpl in He; try discriminate; simpl; auto.
Qed.

Lemma decision_of_verdicts cfg js env m a f :
  fst (checkMarketConditions cfg env) = Normal m ->
  fst (checkAggregatorMetricsForMeltdown cfg js env) = Normal a ->
  fst (circuitBreakerChecks cfg env) = Normal f ->
  decision cfg js env = Normal (m || a || f).
Proof.
  intros Hm Ha Hf. unfold decision. rewrite Hm, Ha, Hf.
  now destruct m, a, f.
Qed.

(** ** The spec's end-to-end scenarios *)

(** Scenario A: recorded price 100, current price 85, threshold 0.10. *)
Example scenario_A :
  let r := runRiskScanner RISK_SCANNER_CONFIG stub_builtins 1%nat market_only_env idle_world in
  fst (checkMarketConditions RISK_SCANNER_CONFIG market_only_env) = Normal true /\
  completion r = Normal tt /\
  final r =
    {| gate := None;
       trading := {| enabled := false; reason := PAUSE_REASON; changedAt := 1000;
                     changedBy := SYSTEM |} |}.
Proof. cbv zeta. repeat split. Qed.

(** Scenario B: error rate 0.05, two failures in the burst window. *)
Example scenario_B :
  let r := runRiskScanner RISK_SCANNER_CONFIG stub_builtins 1%nat calm_env idle_world in
  decision RISK_SCANNER_CONFIG stub_builtins calm_env = Normal false /\
  completion r = Normal tt /\
  final r = idle_world /\
  filter is_alert (events r) = [].
Proof. cbv zeta. repeat split. Qed.

(** A rejected error-rate query makes the collector answer [null]. *)
Example rejected_error_rate_query :
  collectAggregatorMetrics stub_builtins error_rate_rejected_env =
    (Normal None,
     [EvConsoleError "Error fetching error rate:" (Some (Error "Connection terminated"));
      EvQuery Q_error_rate; EvQuery Q_trades_in_60s]).
Proof. reflexivity. Qed.

(** * The claims *)

(** C9: when the gate is held by another holder, the cycle's attempt to
    acquire it is refused at once (the lock query answers [false]; nothing
    waits), and the cycle returns having changed neither the trading state
    nor the gate and having sent no alert: all it does is log that another
    instance is running. *)
Theorem busy_gate_skips_cycle cfg js self env w holder n :
  gate w = Some (holder, n) -> holder <> self ->
  let r := runRiskScanner cfg js self env w in
  completion r = Normal tt /\
  final r = w /\
  events r = [EvConsoleLog "Another instance of riskScanner is already running.";
              EvTryLock self false] /\
  filter is_mutation (events r) = [] /\
  filter is_alert (events r) = [].
Proof.
  intros Hg Hne r. subst r.
  pose proof (runRiskScanner_shape cfg js self env w) as S.
  rewrite Hg in S. cbn [acquire] in S.
  destruct (Nat.eqb_spec holder self) as [->|_]; [contradiction|].
  rewrite S. destruct w as [g st]. cbn in *. subst g. repeat split.
Qed.

(** C8: a cycle that acquires the gate gives it back on every exit path.
    Whatever the sources and the store do (quiet completion, meltdown
    transition, an error thrown in the middle of the evaluation), the last
    thing the cycle does is the unlock; the hold it took is released, and a
    gate that was free before the cycle is free after it. *)
Theorem gate_released_on_every_exit cfg js self env w :
  fst (acquire self (gate w)) = true ->
  let r := runRiskScanner cfg js self env w in
  hd_error (events r) = Some (EvUnlock self) /\
  holds self (events r) = false /\
  gate (final r) = release self (snd (acquire self (gate w))) /\
  (gate w = None -> gate (final r) = None).
Proof.
  intros Hacq r. subst r.
  pose proof (runRiskScanner_shape cfg js self env w) as S.
  destruct (acquire self (gate w)) as [got g1] eqn:E. cbn in Hacq. subst got.
  destruct S as (q & _ & S). rewrite S.
  assert (G : gate w = None -> release self g1 = None).
  { intros Hn. rewrite Hn in E. cbn in E. inversion E; subst. cbn.
    now rewrite Nat.eqb_refl. }
  destruct (decision cfg js env) as [[|]|e]; [destruct (store_write env)| |];
    cbn; rewrite Nat.eqb_refl; auto.
Qed.

(** C4 (amended): in a cycle that acquires the gate, when every source
    evaluation completes and at least one source triggers (and the store
    accepts the pause), the meltdown action runs once: the trading state is
    paused by the system, and the one reason reported is the fixed text
    "riskScanner meltdown => Flash Crash / aggregator meltdown / circuit
    breaker".  The text is not empty and names the three sources in the
    order market, aggregator, failure burst, whichever of them triggered. *)
Theorem meltdown_reports_fixed_reason cfg js self env w m a f :
  fst (acquire self (gate w)) = true ->
  fst (checkMarketConditions cfg env) = Normal m ->
  fst (checkAggregatorMetricsForMeltdown cfg js env) = Normal a ->
  fst (circuitBreakerChecks cfg env) = Normal f ->
  m || a || f = true ->
  store_write env = Normal tt ->
  let r := runRiskScanner cfg js self env w in
  completion r = Normal tt /\
  trading (final r) = pause PAUSE_REASON SYSTEM (now env) (trading w) /\
  reported_reasons (events r) = [PAUSE_REASON] /\
  filter is_alert (events r) = [EvGlobalAlert MELTDOWN_ALERT] /\
  PAUSE_REASON =
    ("riskScanner meltdown => "
       ++ String.concat " / " ["Flash Crash"; "aggregator meltdown"; "circuit breaker"])%string.
Proof.
  intros Hacq Hm Ha Hf Hany Hst r. subst r.
  pose proof (runRiskScanner_shape cfg js self env w) as S.
  destruct (acquire self (gate w)) as [got g1]. cbn in Hacq. subst got.
  destruct S as (q & Hq & S).
  rewrite (decision_of_verdicts cfg js env m a f Hm Ha Hf), Hany, Hst in S.
  rewrite S. cbn [completion final events fst snd trading].
  repeat split.
  - cbn. now rewrite reported_reasons_app_probe.
  - cbn. now rewrite filter_alert_app_probe.
Qed.

Lemma busy_gate_skips_cycle_witness :
  let r := runRiskScanner RISK_SCANNER_CONFIG stub_builtins 1%nat burst_only_env busy_world in
  completion r = Normal tt /\
  final r = busy_world /\
  events r = [EvConsoleLog "Another instance of riskScanner is already running.";
              EvTryLock 1%nat false] /\
  filter is_mutation (events r) = [] /\
  filter is_alert (events r) = [].
Proof.
  apply (busy_gate_skips_cycle RISK_SCANNER_CONFIG stub_builtins 1%nat burst_only_env
           busy_world 2%nat 1%nat); [reflexivity | lia].
Defined.

Lemma gate_released_on_every_exit_witness :
  let r := runRiskScanner RISK_SCANNER_CONFIG stub_builtins 1%nat tps_rejected_env idle_world in
  hd_error (events r) = Some (EvUnlock 1%nat) /\
  holds 1%nat (events r) = false /\
  gate (final r) = release 1%nat (snd (acquire 1%nat (gate idle_world))) /\
  (gate idle_world = None -> gate (final r) = None).
Proof.
  apply (gate_released_on_every_exit RISK_SCANNER_CONFIG stub_builtins 1%nat
           tps_rejected_env idle_world); reflexivity.
Defined.

Lemma meltdown_reports_fixed_reason_witness :
  let r := runRiskScanner RISK_SCANNER_CONFIG stub_builtins 1%nat burst_only_env idle_world in
  completion r = Normal tt /\
  trading (final r) = pause PAUSE_REASON SYSTEM (now burst_only_env) (trading idle_world) /\
  reported_reasons (events r) = [PAUSE_REASON] /\
  filter is_alert (events r) = [EvGlobalAlert MELTDOWN_ALERT] /\
  PAUSE_REASON =
    ("riskScanner meltdown => "
       ++ String.concat " / " ["Flash Crash"; "aggregator meltdown"; "circuit breaker"])%string.
Proof.
  apply (meltdown_reports_fixed_reason RISK_SCANNER_CONFIG stub_builtins 1%nat
           burst_only_env idle_world false false true); reflexivity.
Defined.

(** C4, as stated, fails: when only the market source triggers the reported
    reason is the same text as when only the failure-burst source triggers,
    and it names the aggregator and the circuit breaker, which did not
    trigger; the spec's list would hold the market reason alone.  Per-source
    reasons under which the reported list is the spec's list in both cycles
    would have to give the market source and the failure-burst source one
    and the same reason. *)
Lemma reported_reason_names_untriggered_sources :
  let market_cycle :=
    runRiskScanner RISK_SCANNER_CONFIG stub_builtins 1%nat market_only_env idle_world in
  let burst_cycle :=
    runRiskScanner RISK_SCANNER_CONFIG stub_builtins 1%nat burst_only_env idle_world in
  (fst (checkMarketConditions RISK_SCANNER_CONFIG market_only_env) = Normal true /\
   fst (checkAggregatorMetricsForMeltdown RISK_SCANNER_CONFIG stub_builtins market_only_env)
     = Normal false /\
   fst (circuitBreakerChecks RISK_SCANNER_CONFIG market_only_env) = Normal false) /\
  (fst (checkMarketConditions RISK_SCANNER_CONFIG burst_only_env) = Normal false /\
   fst (checkAggregatorMetricsForMeltdown RISK_SCANNER_CONFIG stub_builtins burst_only_env)
     = Normal false /\
   fst (circuitBreakerChecks RISK_SCANNER_CONFIG burst_only_env) = Normal true) /\
  reported_reasons (events market_cycle) = [PAUSE_REASON] /\
  reported_reasons (events burst_cycle) = [PAUSE_REASON] /\
  String.index 0 "aggregator meltdown" PAUSE_REASON = Some 38%nat /\
  String.index 0 "circuit breaker" PAUSE_REASON = Some 60%nat /\
  spec_reasons "Flash Crash" "aggregator meltdown" "circuit breaker" true false false
    = ["Flash Crash"] /\
  (forall market aggregator burst : string,
     reported_reasons (events market_cycle)
       = spec_reasons market aggregator burst true false false ->
     reported_reasons (events burst_cycle)
       = spec_reasons market aggregator burst false false true ->
     market = burst).
Proof.
  cbv zeta. repeat split; try reflexivity.
  intros market aggregator burst H1 H2.
  vm_compute in H1, H2. congruence.
Qed.

(** ** The admin entry points and the gate *)

Lemma no_gate_events (q : list Event) :
  forallb not_gate_event q = true -> filter is_gate_event q = [].
Proof.
  induction q as [|e q IH]; simpl; [reflexivity|].
  intros H. apply andb_prop in H. destruct H as [He Hq].
  unfold not_gate_event in He. destruct (is_gate_event e); [discriminate|auto].
Qed.

Lemma logAdminAction_no_gate admin action details :
  emits_only not_gate_event (logAdminAction admin action details).
Proof. unfold logAdminAction. emits. Qed.

Lemma getAdminRole_no_gate userId : emits_only not_gate_event (getAdminRole userId).
Proof. unfold getAdminRole. emits. Qed.

Lemma notify_all_no_gate (l : list SuperadminRow) (msg : string) :
  emits_only not_gate_event
    (for_each l (fun a => sendAdminNotification (user_id a) msg)).
Proof. apply emits_for_each. intros x env. reflexivity. Qed.

Lemma forceMarketPause_ignores_gate admin reason_arg env w :
  let r := forceMarketPause admin reason_arg env w in
  gate (final r) = gate w /\ filter is_gate_event (events r) = [].
Proof.
  cbv zeta. unfold forceMarketPause, pauseGlobalTrading, liftR.
  cbn [bind attempt ret throw M_monad].
  set (why := match reason_arg with Some r => r | None => "Manual Admin Pause" end).
  pose proof (logAdminAction_no_gate admin "forceMarketPause" why env) as L.
  destruct (logAdminAction admin "forceMarketPause" why env) as [[[]|e] t0];
    cbn [snd] in L; [|cbn; auto using no_gate_events].
  destruct (store_write env) as [[]|e]; [|cbn; auto using no_gate_events].
  unfold query. destruct (db_superadmins env) as [res|e].
  2:{ cbn. split; [reflexivity|]. now rewrite no_gate_events. }
  destruct (rows res) as [l|].
  2:{ cbn. split; [reflexivity|]. now rewrite no_gate_events. }
  pose proof (notify_all_no_gate l ("Market paused: " ++ why)%string env) as N.
  destruct (for_each l _ env) as [c t1]. cbn [snd] in N. cbn.
  split; [reflexivity|].
  rewrite <- !app_assoc, filter_app. cbn.
  now rewrite (no_gate_events _ N), (no_gate_events _ L).
Qed.

Lemma pause_ai_ignores_gate req env w :
  let r := pause_ai req env w in
  gate (final r) = gate w /\ filter is_gate_event (events r) = [].
Proof.
  cbv zeta. unfold pause_ai, pauseGlobalTrading, liftR.
  cbn [bind attempt ret throw M_monad].
  pose proof (getAdminRole_no_gate (adminId req) env) as L.
  destruct (getAdminRole (adminId req) env) as [[adminRole|e] t0];
    cbn [snd] in L; [|cbn; auto using no_gate_events].
  destruct (negb (adminRole =? "superadmin")%string);
    [cbn; auto using no_gate_events|].
  destruct (store_write env) as [[]|e]; cbn; auto using no_gate_events.
Qed.

Lemma resume_ai_ignores_gate req env w :
  let r := resume_ai req env w in
  gate (final r) = gate w /\ filter is_gate_event (events r) = [].
Proof.
  cbv zeta. unfold resume_ai, try_catch, resumeGlobalTrading.
  cbn [bind attempt ret throw M_monad].
  destruct (store_write env) as [[]|e]; cbn; auto.
Qed.

(** C2 (amended): the automatic cycle changes the trading state only while
    it holds the gate.  The manual entry points ([forceMarketPause] and the
    [pause_ai] and [resume_ai] routes) neither acquire nor release the gate:
    they call pause or resume directly, whoever holds the gate at that
    moment. *)
Theorem only_the_cycle_takes_the_gate cfg js self env w admin reason_arg req :
  mutations_under_gate self (events (runRiskScanner cfg js self env w)) = true /\
  (let r := forceMarketPause admin reason_arg env w in
   gate (final r) = gate w /\ filter is_gate_event (events r) = []) /\
  (let r := pause_ai req env w in
   gate (final r) = gate w /\ filter is_gate_event (events r) = []) /\
  (let r := resume_ai req env w in
   gate (final r) = gate w /\ filter is_gate_event (events r) = []).
Proof.
  split;
    [|split; [apply forceMarketPause_ignores_gate
             |split; [apply pause_ai_ignores_gate | apply resume_ai_ignores_gate]]].
  pose proof (runRiskScanner_shape cfg js self env w) as S.
  destruct (acquire self (gate w)) as [[|] g1].
  - destruct S as (q & Hq & S). rewrite S.
    destruct (decision cfg js env) as [[|]|e]; [destruct (store_write env)| |];
      cbn [events snd mutations_under_gate is_mutation andb];
      rewrite ?holds_app_probe, ?mutations_under_gate_app_probe by assumption;
      cbn; now rewrite ?Nat.eqb_refl.
  - now rewrite S.
Qed.

(** C2, as stated, fails: while scanner session 2 is inside its cycle and
    holds the gate, a manual force-pause, the [pause_ai] route and the
    [resume_ai] route each change the trading state without touching the
    gate, which session 2 still holds afterwards. *)
Lemma manual_override_during_cycle :
  final (pg_try_advisory_lock 2%nat calm_env idle_world) = busy_world /\
  (let r := forceMarketPause 1 (Some "halt") calm_env busy_world in
   final r =
     {| gate := Some (2%nat, 1%nat);
        trading := {| enabled := false; reason := "halt"; changedAt := 1000;
                      changedBy := ADMIN 1 |} |} /\
   filter is_mutation (events r) = [EvPause (ADMIN 1) "halt"] /\
   filter is_gate_event (events r) = []) /\
  (let r := pause_ai {| adminId := 1; body_reason := Some "halt" |} calm_env busy_world in
   final r =
     {| gate := Some (2%nat, 1%nat);
        trading := {| enabled := false; reason := "halt"; changedAt := 1000;
                      changedBy := ADMIN 1 |} |} /\
   filter is_gate_event (events r) = []) /\
  (let r := resume_ai {| adminId := 1; body_reason := None |} calm_env
              {| gate := Some (2%nat, 1%nat); trading := paused_by_system |} in
   final r =
     {| gate := Some (2%nat, 1%nat);
        trading := {| enabled := true; reason := ""; changedAt := 1000;
                      changedBy := ADMIN 1 |} |} /\
   filter is_gate_event (events r) = []).
Proof. cbv zeta. repeat split. Qed.

(** ** Isolation of the signal sources *)

Lemma try_catch_absorbs {A} (c : R A) (h : JsError -> R A) :
  (forall e env, exists a, fst (h e env) = Normal a) ->
  forall env, exists a, fst (try_catch c h env) = Normal a.
Proof.
  intros Hh env. unfold try_catch. cbn [bind attempt ret R_monad].
  destruct (c env) as [[a|e] t]; cbn.
  - now exists a.
  - destruct (Hh e env) as [a Ha]. destruct (h e env) as [r t2].
    cbn in *. subst r. now exists a.
Qed.

(** The market source turns every failure of its own into "not triggered",
    logged on the console. *)
Lemma checkMarketConditions_never_throws cfg env :
  exists b, fst (checkMarketConditions cfg env) = Normal b.
Proof.
  unfold checkMarketConditions. apply try_catch_absorbs.
  intros e env'. now exists false.
Qed.

(** C1 fails on the code at these inputs.  First: the price fell from 100 to
    85, so the market source triggers, and the failure-count query of the
    failure-burst source is rejected.  [circuitBreakerChecks] has no
    [try]/[catch]; the rejection leaves [runRiskScanner] and the cycle ends
    without pausing trading.  Second: the trades-per-second query of the
    aggregator source is rejected while seven executions failed in the last
    two minutes.  [collectAggregatorMetrics] answers [null],
    [checkAggregatorMetricsForMeltdown] throws a TypeError on it, and the
    failure-burst source, which would have triggered, is never evaluated.
    In both cycles the gate is released and the cron callback logs the
    error.  The market source, by contrast, absorbs its own failures. *)
Theorem aggregator_failure_aborts_cycle :
  let r1 :=
    runRiskScanner RISK_SCANNER_CONFIG stub_builtins 1%nat burst_query_rejected_env idle_world in
  let r2 :=
    runRiskScanner RISK_SCANNER_CONFIG stub_builtins 1%nat tps_rejected_env idle_world in
  (fst (checkMarketConditions RISK_SCANNER_CONFIG burst_query_rejected_env) = Normal true /\
   fst (circuitBreakerChecks RISK_SCANNER_CONFIG burst_query_rejected_env)
     = Throw (Error "Connection terminated") /\
   completion r1 = Throw (Error "Connection terminated") /\
   filter is_mutation (events r1) = [] /\
   final r1 = idle_world) /\
  (fst (collectAggregatorMetrics stub_builtins tps_rejected_env) = Normal None /\
   fst (checkAggregatorMetricsForMeltdown RISK_SCANNER_CONFIG stub_builtins tps_rejected_env)
     = Throw (TypeError "Cannot read properties of null (reading 'trade_error_rate')") /\
   completion r2
     = Throw (TypeError "Cannot read properties of null (reading 'trade_error_rate')") /\
   fst (circuitBreakerChecks RISK_SCANNER_CONFIG tps_rejected_env) = Normal true /\
   existsb (fun e => match e with EvQuery Q_fail_count => true | _ => false end) (events r2)
     = false /\
   filter is_mutation (events r2) = [] /\
   final r2 = idle_world) /\
  hd_error (events (riskScannerTick RISK_SCANNER_CONFIG stub_builtins 1%nat
                      tps_rejected_env idle_world))
    = Some (EvConsoleError "Error in risk scanner cron job:"
              (Some (TypeError "Cannot read properties of null (reading 'trade_error_rate')"))) /\
  (forall cfg env, exists b, fst (checkMarketConditions cfg env) = Normal b).
Proof.
  cbv zeta. repeat split. apply checkMarketConditions_never_throws.
Qed.

(** ** Precedence of an admin-set pause *)

(** C3: once the pause was set by an admin, the automatic meltdown pause
    leaves the persisted record (reason, actor and timestamp) as it is; an
    automatic pause that follows an automatic pause records the reason of
    the most recent trigger. *)
Theorem admin_pause_survives_automatic_pause (env : Env) (w : World) (why : string) :
  enabled (trading w) = false ->
  (forall a, changedBy (trading w) = ADMIN a ->
     pause why SYSTEM (now env) (trading w) = trading w /\
     trading (final (meltdownDetectedAction why env w)) = trading w) /\
  (changedBy (trading w) = SYSTEM ->
     store_write env = Normal tt ->
     trading (final (meltdownDetectedAction why env w)) =
       {| enabled := false; reason := ("riskScanner meltdown => " ++ why)%string;
          changedAt := now env; changedBy := SYSTEM |}).
Proof.
  intros Hoff. unfold meltdownDetectedAction, pauseGlobalTrading, liftR, pause.
  cbn [bind attempt ret throw M_monad]. split.
  - intros a Ha. rewrite Hoff, Ha. split; [reflexivity|].
    destruct (store_write env); reflexivity.
  - intros Hsys Hst. now rewrite Hst, Hoff, Hsys.
Qed.

Lemma admin_pause_survives_automatic_pause_witness :
  (pause MELTDOWN_REASON SYSTEM (now market_only_env) (trading admin_paused_world)
     = trading admin_paused_world /\
   trading (final (meltdownDetectedAction MELTDOWN_REASON market_only_env admin_paused_world))
     = paused_by_admin) /\
  trading (final (meltdownDetectedAction MELTDOWN_REASON market_only_env
                    {| gate := None; trading := paused_by_system |}))
    = {| enabled := false; reason := PAUSE_REASON; changedAt := 1000; changedBy := SYSTEM |}.
Proof.
  split.
  - apply (proj1 (admin_pause_survives_automatic_pause market_only_env admin_paused_world
                    MELTDOWN_REASON eq_refl) 1 eq_refl).
  - apply (proj2 (admin_pause_survives_automatic_pause market_only_env
                    {| gate := None; trading := paused_by_system |}
                    MELTDOWN_REASON eq_refl) eq_refl eq_refl).
Defined.

(** ** The resume route *)

(** Whoever calls it, the resume route answers 200 or 500 and asks for no role. *)
Lemma resume_ai_never_refuses req env w :
  let r := resume_ai req env w in
  (store_write env = Normal tt ->
   completion r = Normal {| http_status := 200; success := true;
                            message := Some "AI Trading resumed globally.";
                            error := None |} /\
   enabled (trading (final r)) = true) /\
  (forall e, store_write env = Throw e ->
   completion r = Normal {| http_status := 500; success := false; message := None;
                            error := Some "An unexpected error occurred. Please try again later." |} /\
   final r = w) /\
  existsb (fun ev => match ev with EvQuery (Q_admin_role _) => true | _ => false end)
    (events r) = false.
Proof.
  cbv zeta. unfold resume_ai, try_catch, resumeGlobalTrading.
  cbn [bind attempt ret throw M_monad].
  destruct (store_write env) as [[]|e0]; cbn; repeat split; intros; congruence.
Qed.

(** C7 fails on the code at this input: trading was paused by admin 1 (a
    superadmin) and admin 2, who has no role, calls the resume route.  The
    spec's [resume] refuses with PermissionDenied and leaves the state; the
    route resumes trading and answers success.  The sibling [pause_ai] route
    does check the role and refuses the same caller with 403. *)
Theorem resume_ai_lifts_admin_pause_for_any_caller :
  let req := {| adminId := 2; body_reason := None |} in
  let r := resume_ai req calm_env admin_paused_world in
  fst (getAdminRole 2 calm_env) = Normal "none" /\
  resume_spec false (ADMIN 2) (now calm_env) (trading admin_paused_world)
    = inr PermissionDenied /\
  completion r = Normal {| http_status := 200; success := true;
                           message := Some "AI Trading resumed globally.";
                           error := None |} /\
  trading (final r) =
    {| enabled := true; reason := ""; changedAt := 1000; changedBy := ADMIN 2 |} /\
  completion (pause_ai req calm_env idle_world)
    = Normal {| http_status := 403; success := false; message := None;
                error := Some "Permission denied" |} /\
  final (pause_ai req calm_env idle_world) = idle_world.
Proof. cbv zeta. repeat split. Qed.

(** ** The market source *)

Ltac run_market :=
  unfold checkMarketConditions, fetchCurrentBTCprice, try_catch, query, fetch_json,
    console_error, event, row0, no_rows;
  cbn [bind attempt ret throw R_monad rows hd_error fst snd].

Lemma market_shock_when_prices_known cfg env row rest old cur :
  db_btc_price env = Normal {| rows := Some (row :: rest) |} ->
  old_price row = Some old ->
  PrimFloat.ltb 0 old = true ->
  feed_btc_usd env = Normal (Some cur) ->
  fst (checkMarketConditions cfg env) =
    Normal (if falsy cur then false
            else PrimFloat.leb (priceDropThreshold cfg) ((old - cur) / old)).
Proof.
  intros Hdb Hrow Hpos Hfeed. run_market.
  rewrite Hdb. cbn [rows hd_error]. rewrite Hrow, (positive_or_default old Hpos).
  rewrite (proj1 (positive_passes_guards old Hpos)), Hfeed. cbn.
  destruct (falsy cur); [reflexivity|].
  now destruct (PrimFloat.leb (priceDropThreshold cfg) ((old - cur) / old)).
Qed.

(** C5 (amended): for every threshold configuration, with a recorded price
    above zero and a current price that was fetched and is not zero, the
    market source triggers exactly when the relative drop
    [(old - current) / old] is at least [priceDropThreshold].  A current
    price of zero or a missing one, no recorded price, and a recorded price
    that is null or zero all yield "not triggered"; so does a failure of the
    price feed, whose error is written to the console. *)
Theorem market_shock_verdict cfg env :
  (forall row rest old cur,
     db_btc_price env = Normal {| rows := Some (row :: rest) |} ->
     old_price row = Some old ->
     PrimFloat.ltb 0 old = true ->
     feed_btc_usd env = Normal (Some cur) ->
     falsy cur = false ->
     fst (checkMarketConditions cfg env) =
       Normal (PrimFloat.leb (priceDropThreshold cfg) ((old - cur) / old))) /\
  (forall row rest old cur,
     db_btc_price env = Normal {| rows := Some (row :: rest) |} ->
     old_price row = Some old ->
     PrimFloat.ltb 0 old = true ->
     feed_btc_usd env = Normal cur ->
     match cur with Some c => falsy c | None => true end = true ->
     fst (checkMarketConditions cfg env) = Normal false) /\
  (forall res,
     db_btc_price env = Normal res ->
     no_rows res = true ->
     fst (checkMarketConditions cfg env) = Normal false) /\
  (forall row rest,
     db_btc_price env = Normal {| rows := Some (row :: rest) |} ->
     old_price row = None \/ old_price row = Some 0%float ->
     fst (checkMarketConditions cfg env) = Normal false) /\
  (forall row rest old e,
     db_btc_price env = Normal {| rows := Some (row :: rest) |} ->
     old_price row = Some old ->
     PrimFloat.ltb 0 old = true ->
     feed_btc_usd env = Throw e ->
     fst (checkMarketConditions cfg env) = Normal false /\
     In (EvConsoleError "Error fetching BTC price:" (Some e))
        (snd (checkMarketConditions cfg env))).
Proof.
  split; [|split; [|split; [|split]]].
  - intros row rest old cur Hdb Hrow Hpos Hfeed Hcur.
    rewrite (market_shock_when_prices_known cfg env row rest old cur Hdb Hrow Hpos Hfeed).
    now rewrite Hcur.
  - intros row rest old [cur|] Hdb Hrow Hpos Hfeed Hcur.
    + rewrite (market_shock_when_prices_known cfg env row rest old cur Hdb Hrow Hpos Hfeed).
      now rewrite Hcur.
    + run_market. rewrite Hdb. cbn [rows hd_error].
      rewrite Hrow, (positive_or_default old Hpos).
      now rewrite (proj1 (positive_passes_guards old Hpos)), Hfeed.
  - intros res Hdb Hnone. run_market. rewrite Hdb.
    unfold no_rows in Hnone. destruct (rows res) as [[|x l]|]; [reflexivity|discriminate|reflexivity].
  - intros row rest Hdb Hrow. run_market. rewrite Hdb. cbn [rows hd_error].
    destruct Hrow as [-> | ->]; reflexivity.
  - intros row rest old e Hdb Hrow Hpos Hfeed. run_market.
    rewrite Hdb. cbn [rows hd_error]. rewrite Hrow, (positive_or_default old Hpos).
    rewrite (proj1 (positive_passes_guards old Hpos)), Hfeed. cbn. auto.
Qed.

Lemma market_shock_verdict_witness :
  fst (checkMarketConditions RISK_SCANNER_CONFIG market_only_env)
    = Normal (PrimFloat.leb (priceDropThreshold RISK_SCANNER_CONFIG) ((100 - 85) / 100)) /\
  fst (checkMarketConditions RISK_SCANNER_CONFIG feed_zero_env) = Normal false /\
  fst (checkMarketConditions RISK_SCANNER_CONFIG no_price_env) = Normal false /\
  fst (checkMarketConditions RISK_SCANNER_CONFIG zero_price_env) = Normal false /\
  (fst (checkMarketConditions RISK_SCANNER_CONFIG feed_down_env) = Normal false /\
   In (EvConsoleError "Error fetching BTC price:"
         (Some (Error "request to api.coingecko.com failed")))
      (snd (checkMarketConditions RISK_SCANNER_CONFIG feed_down_env))).
Proof.
  pose proof (market_shock_verdict RISK_SCANNER_CONFIG market_only_env) as (A & _).
  pose proof (market_shock_verdict RISK_SCANNER_CONFIG feed_zero_env) as (_ & B & _).
  pose proof (market_shock_verdict RISK_SCANNER_CONFIG no_price_env) as (_ & _ & C & _).
  pose proof (market_shock_verdict RISK_SCANNER_CONFIG zero_price_env) as (_ & _ & _ & D & _).
  pose proof (market_shock_verdict RISK_SCANNER_CONFIG feed_down_env) as (_ & _ & _ & _ & E).
  split; [|split; [|split; [|split]]].
  - apply (A {| old_price := Some 100%float |} [] 100%float 85%float); reflexivity.
  - apply (B {| old_price := Some 100%float |} [] 100%float (Some 0%float)); reflexivity.
  - apply (C {| rows := Some [] |}); reflexivity.
  - apply (D {| old_price := Some 0%float |} []); [reflexivity | right; reflexivity].
  - apply (E {| old_price := Some 100%float |} [] 100%float
             (Error "request to api.coingecko.com failed")); reflexivity.
Defined.

(** C5, as stated, fails: with a recorded price of 100 and a current price
    of 0 reported by the feed, the relative drop is 1, which is at least the
    threshold 0.10, and the market source does not trigger. *)
Lemma total_loss_does_not_trigger :
  db_btc_price feed_zero_env = ok_rows [{| old_price := Some 100%float |}] /\
  feed_btc_usd feed_zero_env = Normal (Some 0%float) /\
  ((100 - 0) / 100 = 1)%float /\
  PrimFloat.leb (priceDropThreshold RISK_SCANNER_CONFIG) ((100 - 0) / 100) = true /\
  fst (checkMarketConditions RISK_SCANNER_CONFIG feed_zero_env) = Normal false.
Proof. repeat split. Qed.

(** ** The aggregator source *)

Ltac run_collect :=
  unfold collectAggregatorMetrics, row0_strict, row0, query, getLatestBlockhash,
    console_error, event, no_rows;
  cbn [bind attempt ret throw R_monad rows hd_error fst snd].

(** What a stats record that was collected says about the error-rate row. *)
Lemma collectAggregatorMetrics_stats js env s :
  fst (collectAggregatorMetrics js env) = Normal (Some s) ->
  exists row rest,
    db_error_rate env = Normal {| rows := Some (row :: rest) |} /\
    trade_error_rate s =
      (if parseInt_or0 (total_count row) >? 0
       then (num (parseInt_or0 (fail_count row)) / num (parseInt_or0 (total_count row)))%float
       else 0%float) /\
    meltdownWarnings s = false.
Proof.
  run_collect.
  destruct (db_trades_in_60s env) as [[[[|tr tl]|]]|e]; cbn; try discriminate.
  destruct (db_error_rate env) as [[[[|er el]|]]|e]; cbn; try discriminate.
  destruct (db_avg_latency env) as [[[ll|]]|e]; cbn; try discriminate.
  destruct (db_conflicts env) as [[[cl|]]|e]; cbn; try discriminate.
  destruct (rpc_latest_blockhash env) as [[]|e]; cbn;
    (destruct (db_recent_trades env) as [[[fl|]]|e']; cbn; try discriminate;
     destruct (map_rows (toTrade js) fl env) as [[trades|e''] t]; cbn; try discriminate;
     intros H; inversion H; subst; cbn; exists er, el; auto).
Qed.

(** C6 (amended): the aggregator source triggers exactly when the windowed
    error rate is strictly above [aggregatorErrorRate], or the
    meltdown-warning flag of the stats is set.  This holds for whatever
    collector supplies the stats: a set flag triggers at any rate, and
    without the flag only a rate strictly above the threshold does.  With
    an error rate of 0 (and a threshold that is not negative) the rate does
    not trigger: the verdict is the flag alone.  The collector of
    aggregatorMonitor.js computes the rate as failures over total, and as 0
    when the window holds zero executions. *)
Theorem aggregator_health_verdict cfg (collect : R (option Stats)) env s :
  fst (collect env) = Normal (Some s) ->
  let verdict := fst (checkAggregatorMetricsForMeltdownWith cfg collect env) in
  verdict =
    Normal (PrimFloat.ltb (aggregatorErrorRate cfg) (trade_error_rate s)
            || meltdownWarnings s) /\
  (meltdownWarnings s = true -> verdict = Normal true) /\
  (meltdownWarnings s = false ->
   verdict = Normal (PrimFloat.ltb (aggregatorErrorRate cfg) (trade_error_rate s))) /\
  (trade_error_rate s = 0%float ->
   PrimFloat.leb 0 (aggregatorErrorRate cfg) = true ->
   verdict = Normal (meltdownWarnings s)) /\
  (forall js env0 s0,
     fst (collectAggregatorMetrics js env0) = Normal (Some s0) ->
     exists row rest,
       db_error_rate env0 = Normal {| rows := Some (row :: rest) |} /\
       trade_error_rate s0 =
         (if parseInt_or0 (total_count row) >? 0
          then (num (parseInt_or0 (fail_count row))
                / num (parseInt_or0 (total_count row)))%float
          else 0%float) /\
       (parseInt_or0 (total_count row) = 0 -> trade_error_rate s0 = 0%float)).
Proof.
  intros Hs. cbv zeta.
  assert (V : fst (checkAggregatorMetricsForMeltdownWith cfg collect env) =
              Normal (PrimFloat.ltb (aggregatorErrorRate cfg) (trade_error_rate s)
                      || meltdownWarnings s)).
  { unfold checkAggregatorMetricsForMeltdownWith. cbn [bind R_monad].
    destruct (collect env) as [[[s'|]|e] t]; cbn in Hs; try discriminate.
    inversion Hs; subst s'.
    destruct (PrimFloat.ltb (aggregatorErrorRate cfg) (trade_error_rate s));
      [reflexivity|]. now destruct (meltdownWarnings s). }
  split; [exact V|]. split; [|split; [|split]].
  - intros Hw. rewrite V, Hw. now rewrite orb_true_r.
  - intros Hw. rewrite V, Hw. now rewrite orb_false_r.
  - intros Hrate Hthr. now rewrite V, Hrate, (zero_not_above _ Hthr).
  - intros js env0 s0 H0.
    destruct (collectAggregatorMetrics_stats js env0 s0 H0)
      as (row & rest & Hdb & Hrate & _).
    exists row, rest. split; [exact Hdb|]. split; [exact Hrate|].
    intros Hzero. rewrite Hzero in Hrate. exact Hrate.
Qed.

Lemma aggregator_health_verdict_witness :
  let verdict :=
    fst (checkAggregatorMetricsForMeltdownWith RISK_SCANNER_CONFIG warning_collect calm_env) in
  verdict =
    Normal (PrimFloat.ltb (aggregatorErrorRate RISK_SCANNER_CONFIG)
              (trade_error_rate warning_stats)
            || meltdownWarnings warning_stats) /\
  verdict = Normal true /\
  verdict = Normal (meltdownWarnings warning_stats) /\
  (forall js env0 s0,
     fst (collectAggregatorMetrics js env0) = Normal (Some s0) ->
     exists row rest,
       db_error_rate env0 = Normal {| rows := Some (row :: rest) |} /\
       trade_error_rate s0 =
         (if parseInt_or0 (total_count row) >? 0
          then (num (parseInt_or0 (fail_count row))
                / num (parseInt_or0 (total_count row)))%float
          else 0%float) /\
       (parseInt_or0 (total_count row) = 0 -> trade_error_rate s0 = 0%float)).
Proof.
  cbv zeta.
  destruct (aggregator_health_verdict RISK_SCANNER_CONFIG warning_collect calm_env
              warning_stats eq_refl) as (V & F & _ & Z & Q).
  split; [exact V|]. split; [apply F; reflexivity|].
  split; [apply Z; reflexivity | exact Q].
Defined.

(** C6, as stated, fails: with 3 failures out of 20 executions the error
    rate equals the threshold 0.15, so it is greater than or equal to it,
    and the aggregator source does not trigger. *)
Lemma error_rate_at_threshold_does_not_trigger :
  fst (collectAggregatorMetrics stub_builtins rate_at_threshold_env)
    = Normal (Some at_threshold_stats) /\
  trade_error_rate at_threshold_stats = (num 3 / num 20)%float /\
  PrimFloat.eqb (num 3 / num 20) (aggregatorErrorRate RISK_SCANNER_CONFIG) = true /\
  PrimFloat.leb (aggregatorErrorRate RISK_SCANNER_CONFIG) (trade_error_rate at_threshold_stats)
    = true /\
  meltdownWarnings at_threshold_stats = false /\
  fst (checkAggregatorMetricsForMeltdown RISK_SCANNER_CONFIG stub_builtins rate_at_threshold_env)
    = Normal false.
Proof. repeat split. Qed.

(** ** The aggregator monitor *)

(** C10 (amended): when the trades-per-second query is rejected or answers
    with no row, or the error-rate query is rejected,
    [collectAggregatorMetrics] returns [null]; [runAggregatorMonitor] hands
    that [null] to [handleAggregatorStats], which reads
    [stats.aggregator_tps] before anything else and so throws a TypeError:
    the monitor cycle faults, storing nothing and alerting nobody.  With a
    stats record (and the INSERT accepted) [handleAggregatorStats]
    completes. *)
Theorem null_stats_fault_the_monitor mon js env :
  (is_throw (db_trades_in_60s env) = true \/
   (exists res, db_trades_in_60s env = Normal res /\ no_rows res = true) \/
   is_throw (db_error_rate env) = true) ->
  fst (collectAggregatorMetrics js env) = Normal None /\
  handleAggregatorStats mon js None env =
    (Throw (TypeError "Cannot read properties of null (reading 'aggregator_tps')"), []) /\
  fst (runAggregatorMonitor mon js env) =
    Throw (TypeError "Cannot read properties of null (reading 'aggregator_tps')") /\
  snd (runAggregatorMonitor mon js env) = snd (collectAggregatorMetrics js env) /\
  (forall s, db_insert_aggregator_stats env = Normal tt ->
             fst (handleAggregatorStats mon js (Some s) env) = Normal tt).
Proof.
  intros H.
  assert (N : fst (collectAggregatorMetrics js env) = Normal None).
  { run_collect.
    destruct (db_trades_in_60s env) as [[[[|tr tl]|]]|e]; cbn; try reflexivity.
    destruct H as [H | [(res & Hres & Hno) | H]].
    - discriminate.
    - inversion Hres; subst res. discriminate.
    - destruct (db_error_rate env) as [r|e]; [discriminate|reflexivity]. }
  split; [exact N|]. split; [reflexivity|].
  unfold runAggregatorMonitor. cbn [bind R_monad].
  destruct (collectAggregatorMetrics js env) as [[[s|]|e] t]; cbn in N; try discriminate.
  cbn. repeat split.
  intros s Hins. unfold handleAggregatorStats, query, sendAdminGlobalAlert, event.
  cbn [bind ret R_monad]. rewrite Hins.
  destruct (PrimFloat.ltb (ERROR_RATE_THRESHOLD mon) (trade_error_rate s));
    destruct (queueLength s >? QUEUE_LENGTH_THRESHOLD mon);
    destruct (negb (rpcHealthy s)); reflexivity.
Qed.

Lemma null_stats_fault_the_monitor_witness :
  fst (collectAggregatorMetrics stub_builtins tps_rejected_env) = Normal None /\
  handleAggregatorStats DEFAULT_MONITOR_CONFIG stub_builtins None tps_rejected_env =
    (Throw (TypeError "Cannot read properties of null (reading 'aggregator_tps')"), []) /\
  fst (runAggregatorMonitor DEFAULT_MONITOR_CONFIG stub_builtins tps_rejected_env) =
    Throw (TypeError "Cannot read properties of null (reading 'aggregator_tps')") /\
  snd (runAggregatorMonitor DEFAULT_MONITOR_CONFIG stub_builtins tps_rejected_env)
    = snd (collectAggregatorMetrics stub_builtins tps_rejected_env) /\
  (forall s, db_insert_aggregator_stats tps_rejected_env = Normal tt ->
             fst (handleAggregatorStats DEFAULT_MONITOR_CONFIG stub_builtins (Some s)
                    tps_rejected_env) = Normal tt).
Proof.
  apply (null_stats_fault_the_monitor DEFAULT_MONITOR_CONFIG stub_builtins tps_rejected_env).
  left. reflexivity.
Defined.

(** C10, as stated, fails for the error-rate query that answers with no
    row: [collectAggregatorMetrics] does not return [null]; it throws a
    TypeError itself when it reads [errorRes.rows[0].fail_count]. *)
Lemma empty_error_rate_result_throws_in_collector :
  db_error_rate error_rate_no_rows_env = Normal {| rows := Some [] |} /\
  fst (collectAggregatorMetrics stub_builtins error_rate_no_rows_env) =
    Throw (TypeError "Cannot read properties of undefined (reading 'fail_count')") /\
  fst (runAggregatorMonitor DEFAULT_MONITOR_CONFIG stub_builtins error_rate_no_rows_env) =
    Throw (TypeError "Cannot read properties of undefined (reading 'fail_count')").
Proof. repeat split. Qed.

(** * Further properties of the cycle *)

Lemma filter_mutation_app_probe (q t : list Event) :
  forallb is_probe q = true -> filter is_mutation (q ++ t) = filter is_mutation t.
Proof.
  induction q as [|e q IH]; simpl; [reflexivity|].
  intros H. apply andb_prop in H. destruct H as [He Hq].
  destruct e; simpl in He; try discriminate; simpl; auto.
Qed.

(** X1: the cron callback of [scheduleRiskScanner] absorbs every error of a
    cycle: it always completes normally and leaves the world as the cycle
    left it; around the events of the cycle it only logs its start and, when
    the cycle threw, that error. *)
Theorem riskScannerTick_never_throws cfg js self env w :
  let tick := riskScannerTick cfg js self env w in
  let r := runRiskScanner cfg js self env w in
  let started := EvConsoleLog "[riskScanner] Checking meltdown or circuit-breakers..." in
  completion tick = Normal tt /\
  final tick = final r /\
  events tick =
    match completion r with
    | Normal _ => events r ++ [started]
    | Throw e =>
        EvConsoleError "Error in risk scanner cron job:" (Some e) :: events r ++ [started]
    end.
Proof.
  cbv zeta. unfold riskScannerTick, try_catch, liftR, console_error, event.
  cbn [bind attempt ret throw M_monad].
  destruct (runRiskScanner cfg js self env w) as [[[[]|e] w1] t]; cbn;
    (split; [reflexivity|]); split; reflexivity.
Qed.

(** X2: a cycle that gets a free gate, in which every source completes and
    none triggers, leaves the world exactly as it found it, changes no
    trading state and sends no alert. *)
Theorem quiet_cycle_changes_nothing cfg js self env w :
  gate w = None ->
  fst (checkMarketConditions cfg env) = Normal false ->
  fst (checkAggregatorMetricsForMeltdown cfg js env) = Normal false ->
  fst (circuitBreakerChecks cfg env) = Normal false ->
  let r := runRiskScanner cfg js self env w in
  completion r = Normal tt /\
  final r = w /\
  filter is_mutation (events r) = [] /\
  filter is_alert (events r) = [].
Proof.
  intros Hg Hm Ha Hf r. subst r.
  pose proof (runRiskScanner_shape cfg js self env w) as S.
  rewrite Hg in S. cbn [acquire] in S. destruct S as (q & Hq & S).
  rewrite (decision_of_verdicts cfg js env false false false Hm Ha Hf) in S.
  cbn [orb] in S. rewrite S. cbn [completion final events fst snd release].
  rewrite Nat.eqb_refl. destruct w as [g st]. cbn in *. subst g.
  repeat split.
  - cbn. now rewrite filter_mutation_app_probe.
  - cbn. now rewrite filter_alert_app_probe.
Qed.

Lemma quiet_cycle_changes_nothing_witness :
  let r := runRiskScanner RISK_SCANNER_CONFIG stub_builtins 1%nat calm_env idle_world in
  completion r = Normal tt /\
  final r = idle_world /\
  filter is_mutation (events r) = [] /\
  filter is_alert (events r) = [].
Proof.
  apply (quiet_cycle_changes_nothing RISK_SCANNER_CONFIG stub_builtins 1%nat calm_env
           idle_world); reflexivity.
Defined.

(** X3: whatever the environment, a cycle changes the trading state at most
    once, and only by the system's pause with the fixed reason
    [riskScanner meltdown => Flash Crash / aggregator meltdown / circuit
    breaker]; it never resumes trading.  The meltdown alert is sent exactly when that pause was
    made: a cycle that does not pause (gate busy, no trigger, a source that
    threw, or a store that rejected the write) alerts nobody and leaves the
    trading state as it was. *)
Theorem cycle_pauses_at_most_once cfg js self env w :
  let r := runRiskScanner cfg js self env w in
  (filter is_mutation (events r) = [] /\
   filter is_alert (events r) = [] /\
   trading (final r) = trading w) \/
  (filter is_mutation (events r) = [EvPause SYSTEM PAUSE_REASON] /\
   filter is_alert (events r) = [EvGlobalAlert MELTDOWN_ALERT] /\
   trading (final r) = pause PAUSE_REASON SYSTEM (now env) (trading w) /\
   completion r = Normal tt /\
   decision cfg js env = Normal true).
Proof.
  cbv zeta.
  pose proof (runRiskScanner_shape cfg js self env w) as S.
  destruct (acquire self (gate w)) as [[|] g1].
  - destruct S as (q & Hq & S). rewrite S.
    destruct (decision cfg js env) as [[|]|e]; [destruct (store_write env)| |];
      cbn [completion final events fst snd trading filter is_mutation is_alert];
      rewrite ?filter_mutation_app_probe, ?filter_alert_app_probe by assumption;
      cbn; auto 10.
  - rewrite S. left. repeat split.
Qed.

(** ** The failure-burst source *)

(** X4: the failure-burst source triggers exactly when the failure count of
    the last two minutes is at least [consecutiveFailThreshold]; a null
    count or a result without a row counts as 0; a rejected query is not
    caught and leaves the function as an error. *)
Theorem failure_burst_verdict cfg env :
  (forall row rest,
     db_fail_count env = Normal {| rows := Some (row :: rest) |} ->
     fst (circuitBreakerChecks cfg env) =
       Normal (consecutiveFailThreshold cfg <=? parseInt_or0 (burst_fail_count row))) /\
  (db_fail_count env = Normal {| rows := Some [] |} ->
   fst (circuitBreakerChecks cfg env) = Normal (consecutiveFailThreshold cfg <=? 0)) /\
  (forall e, db_fail_count env = Throw e ->
     fst (circuitBreakerChecks cfg env) = Throw e).
Proof.
  unfold circuitBreakerChecks, query, row0.
  cbn [bind attempt ret throw R_monad].
  split; [|split].
  - intros row rest H. rewrite H. cbn. rewrite Z.geb_leb.
    now destruct (consecutiveFailThreshold cfg <=? parseInt_or0 (burst_fail_count row)).
  - intros H. rewrite H. cbn. rewrite Z.geb_leb.
    now destruct (consecutiveFailThreshold cfg <=? 0).
  - intros e H. now rewrite H.
Qed.

Lemma failure_burst_verdict_witness :
  fst (circuitBreakerChecks RISK_SCANNER_CONFIG burst_only_env) =
    Normal (consecutiveFailThreshold RISK_SCANNER_CONFIG
              <=? parseInt_or0 (burst_fail_count {| burst_fail_count := Some 7 |})) /\
  fst (circuitBreakerChecks RISK_SCANNER_CONFIG no_fail_rows_env) =
    Normal (consecutiveFailThreshold RISK_SCANNER_CONFIG <=? 0) /\
  fst (circuitBreakerChecks RISK_SCANNER_CONFIG burst_query_rejected_env)
    = Throw (Error "Connection terminated").
Proof.
  pose proof (failure_burst_verdict RISK_SCANNER_CONFIG burst_only_env) as (A & _).
  pose proof (failure_burst_verdict RISK_SCANNER_CONFIG no_fail_rows_env) as (_ & B & _).
  pose proof (failure_burst_verdict RISK_SCANNER_CONFIG burst_query_rejected_env)
    as (_ & _ & C).
  split; [|split].
  - apply (A {| burst_fail_count := Some 7 |} []). reflexivity.
  - apply B. reflexivity.
  - apply (C (Error "Connection terminated")). reflexivity.
Defined.

(** ** The manual pause *)

Lemma filter_none {A} (P Q : A -> bool) (l : list A) :
  (forall x, Q x = true -> P x = false) ->
  forallb Q l = true -> filter P l = [].
Proof.
  intros HPQ. induction l as [|x l IH]; [reflexivity|].
  cbn. intros H. apply andb_prop in H. destruct H as [Hx Hl].
  now rewrite (HPQ x Hx), (IH Hl).
Qed.

Lemma filter_all {A} (P : A -> bool) (l : list A) :
  forallb P l = true -> filter P l = l.
Proof.
  induction l as [|x l IH]; [reflexivity|].
  cbn. intros H. apply andb_prop in H. destruct H as [Hx Hl].
  now rewrite Hx, (IH Hl).
Qed.

Lemma existsb_none {A} (P Q : A -> bool) (l : list A) :
  (forall x, Q x = true -> P x = false) ->
  forallb Q l = true -> existsb P l = false.
Proof.
  intros HPQ. induction l as [|x l IH]; [reflexivity|].
  cbn. intros H. apply andb_prop in H. destruct H as [Hx Hl].
  now rewrite (HPQ x Hx), (IH Hl).
Qed.

Lemma probe_is_no_alert e : is_probe e = true -> is_alert e = false.
Proof. now destruct e. Qed.

Lemma probe_is_no_mutation e : is_probe e = true -> is_mutation e = false.
Proof. now destruct e. Qed.

Lemma alert_is_no_mutation e : is_alert e = true -> is_mutation e = false.
Proof. now destruct e. Qed.

Lemma logAdminAction_probes admin action details :
  emits_only is_probe (logAdminAction admin action details).
Proof. unfold logAdminAction. emits. Qed.

Lemma logAdminAction_no_lookup admin action details :
  emits_only not_superadmin_lookup (logAdminAction admin action details).
Proof. unfold logAdminAction. emits. Qed.

(** The audit log never stops its caller. *)
Lemma logAdminAction_never_throws admin action details env :
  fst (logAdminAction admin action details env) = Normal tt.
Proof.
  unfold logAdminAction, try_catch, query, console_error, event.
  cbn [bind attempt ret throw R_monad].
  now destruct (db_insert_admin_logs env).
Qed.

Lemma notify_all_events (l : list SuperadminRow) (msg : string) (env : Env) :
  for_each l (fun a => sendAdminNotification (user_id a) msg) env =
    (Normal tt, rev (notifications_for l msg)).
Proof.
  unfold notifications_for.
  induction l as [|x l IH]; [reflexivity|].
  cbn [for_each map rev]. cbn [bind R_monad]. cbn [sendAdminNotification event].
  now rewrite IH.
Qed.

Lemma notifications_are_alerts (l : list SuperadminRow) (msg : string) :
  forallb is_alert (rev (notifications_for l msg)) = true.
Proof.
  apply forallb_forall. intros x Hx. apply in_rev in Hx.
  unfold notifications_for in Hx. apply in_map_iff in Hx.
  destruct Hx as (a & <- & _). reflexivity.
Qed.

(** X5: [forceMarketPause] pauses trading whether or not the audit log
    could be written.  When the store accepts the pause, every superadmin
    row is notified once, in the order of the rows, with the reason in the
    message (the default reason when none was given).  When the store
    rejects the pause, the error leaves the function, the world is
    unchanged, the superadmins are not even looked up and nobody is
    notified. *)
Theorem forceMarketPause_effects admin reason_arg env w :
  let why := match reason_arg with Some r => r | None => "Manual Admin Pause" end in
  let r := forceMarketPause admin reason_arg env w in
  (forall l,
     store_write env = Normal tt ->
     db_superadmins env = Normal {| rows := Some l |} ->
     completion r = Normal tt /\
     final r = {| gate := gate w;
                  trading := pause why (ADMIN admin) (now env) (trading w) |} /\
     filter is_mutation (events r) = [EvPause (ADMIN admin) why] /\
     rev (filter is_alert (events r)) =
       map (fun a => EvAdminNotification (user_id a) ("Market paused: " ++ why)%string) l) /\
  (forall e,
     store_write env = Throw e ->
     completion r = Throw e /\
     final r = w /\
     filter is_alert (events r) = [] /\
     existsb is_superadmin_lookup (events r) = false).
Proof.
  cbv zeta. unfold forceMarketPause, pauseGlobalTrading, liftR.
  cbn [bind attempt ret throw M_monad].
  set (why := match reason_arg with Some r => r | None => "Manual Admin Pause" end).
  pose proof (logAdminAction_probes admin "forceMarketPause" why env) as L.
  pose proof (logAdminAction_no_lookup admin "forceMarketPause" why env) as K.
  pose proof (logAdminAction_never_throws admin "forceMarketPause" why env) as N.
  destruct (logAdminAction admin "forceMarketPause" why env) as [c t0].
  cbn [fst snd] in L, K, N. subst c. split.
  - intros l Hst Hsa. rewrite Hst. unfold query. rewrite Hsa. cbn [rows].
    rewrite notify_all_events.
    pose proof (notifications_are_alerts l ("Market paused: " ++ why)%string) as A.
    assert (B : rev (rev (notifications_for l ("Market paused: " ++ why)%string))
                = map (fun a => EvAdminNotification (user_id a)
                                  ("Market paused: " ++ why)%string) l)
      by apply rev_involutive.
    set (ns := rev (notifications_for l ("Market paused: " ++ why)%string)) in *.
    cbn [completion final events fst snd].
    split; [reflexivity|]. split; [reflexivity|]. split.
    + rewrite !filter_app. cbn.
      rewrite (filter_none is_mutation is_alert _ alert_is_no_mutation A).
      now rewrite (filter_none is_mutation is_probe _ probe_is_no_mutation L).
    + rewrite !filter_app. cbn.
      rewrite (filter_all is_alert _ A).
      now rewrite (filter_none is_alert is_probe _ probe_is_no_alert L), !app_nil_r.
  - intros e Hst. rewrite Hst. cbn.
    split; [reflexivity|]. split; [reflexivity|]. split.
    + exact (filter_none is_alert is_probe _ probe_is_no_alert L).
    + apply (existsb_none is_superadmin_lookup not_superadmin_lookup); [|exact K].
      intros x Hx. unfold not_superadmin_lookup in Hx.
      now destruct (is_superadmin_lookup x).
Qed.

Lemma forceMarketPause_effects_witness :
  (let r := forceMarketPause 1 None calm_env idle_world in
   completion r = Normal tt /\
   final r = {| gate := gate idle_world;
                trading := pause "Manual Admin Pause" (ADMIN 1) (now calm_env)
                             (trading idle_world) |} /\
   filter is_mutation (events r) = [EvPause (ADMIN 1) "Manual Admin Pause"] /\
   rev (filter is_alert (events r)) =
     map (fun a => EvAdminNotification (user_id a)
                     ("Market paused: " ++ "Manual Admin Pause")%string)
       [{| user_id := 1 |}]) /\
  (let r := forceMarketPause 1 None store_down_env idle_world in
   completion r = Throw (Error "could not write trading state") /\
   final r = idle_world /\
   filter is_alert (events r) = [] /\
   existsb is_superadmin_lookup (events r) = false).
Proof.
  split.
  - apply (proj1 (forceMarketPause_effects 1 None calm_env idle_world)
             [{| user_id := 1 |}]); reflexivity.
  - apply (proj2 (forceMarketPause_effects 1 None store_down_env idle_world)
             (Error "could not write trading state")); reflexivity.
Defined.

(** ** The pause route *)

(** X6: the [pause_ai] route pauses trading exactly for a caller whose role
    is superadmin.  Any other caller (also one without a role row, whose
    role is "none") is answered 403 and the world is left untouched.  For a
    superadmin the pause is made in the caller's name with the reason of
    the request body, or "Manual Admin Pause" when the body gives none or an
    empty one.  The route has no error handler: a store that rejects the
    write makes the handler throw instead of answering. *)
Theorem pause_ai_only_for_superadmin req env w rs :
  db_admin_role env (adminId req) = Normal {| rows := Some rs |} ->
  let caller_role := match rs with [] => "none" | r :: _ => role r end in
  let why := or_default_string (body_reason req) "Manual Admin Pause" in
  let r := pause_ai req env w in
  (caller_role <> "superadmin" ->
   completion r = Normal {| http_status := 403; success := false; message := None;
                            error := Some "Permission denied" |} /\
   final r = w /\
   events r = [EvQuery (Q_admin_role (adminId req))]) /\
  (caller_role = "superadmin" ->
   store_write env = Normal tt ->
   completion r = Normal {| http_status := 200; success := true;
                            message := Some "AI Trading is paused globally.";
                            error := None |} /\
   final r = {| gate := gate w;
                trading := pause why (ADMIN (adminId req)) (now env) (trading w) |}) /\
  (caller_role = "superadmin" ->
   forall e, store_write env = Throw e ->
   completion r = Throw e /\ final r = w).
Proof.
  intros Hrole. cbv zeta.
  unfold pause_ai, getAdminRole, pauseGlobalTrading, liftR, query.
  cbn [bind attempt ret throw M_monad R_monad]. rewrite Hrole. cbn [rows].
  set (caller_role := match rs with [] => "none" | r :: _ => role r end).
  assert (E : (let (r, t) :=
                 match rs with
                 | [] => ret (m := R) "none"
                 | r :: _ => ret (role r)
                 end env in (r, t ++ [EvQuery (Q_admin_role (adminId req))]))
              = (Normal caller_role, [EvQuery (Q_admin_role (adminId req))])).
  { subst caller_role. now destruct rs. }
  cbn [ret R_monad] in E. rewrite E. clear E.
  destruct (String.eqb_spec caller_role "superadmin") as [Heq|Hne]; cbn [negb].
  - split; [intros H; contradiction|]. split.
    + intros _ Hst. rewrite Hst. split; reflexivity.
    + intros _ e Hst. rewrite Hst. split; reflexivity.
  - split; [|split; intros H; contradiction].
    intros _. repeat split.
Qed.

Lemma pause_ai_only_for_superadmin_witness :
  (let r := pause_ai {| adminId := 2; body_reason := Some "halt" |} calm_env idle_world in
   completion r = Normal {| http_status := 403; success := false; message := None;
                            error := Some "Permission denied" |} /\
   final r = idle_world /\
   events r = [EvQuery (Q_admin_role 2)]) /\
  (let r := pause_ai {| adminId := 1; body_reason := Some "" |} calm_env idle_world in
   completion r = Normal {| http_status := 200; success := true;
                            message := Some "AI Trading is paused globally.";
                            error := None |} /\
   final r = {| gate := None;
                trading := pause "Manual Admin Pause" (ADMIN 1) 1000 trading_open |}) /\
  (let r := pause_ai {| adminId := 1; body_reason := None |} store_down_env idle_world in
   completion r = Throw (Error "could not write trading state") /\ final r = idle_world).
Proof.
  pose proof (pause_ai_only_for_superadmin {| adminId := 2; body_reason := Some "halt" |}
                calm_env idle_world [] eq_refl) as (A & _).
  pose proof (pause_ai_only_for_superadmin {| adminId := 1; body_reason := Some "" |}
                calm_env idle_world [{| role := "superadmin" |}] eq_refl) as (_ & B & _).
  pose proof (pause_ai_only_for_superadmin {| adminId := 1; body_reason := None |}
                store_down_env idle_world [{| role := "superadmin" |}] eq_refl) as (_ & _ & C).
  split; [|split].
  - apply A. discriminate.
  - apply B; reflexivity.
  - apply (C eq_refl (Error "could not write trading state")). reflexivity.
Defined.

(** X19: the [resume_ai] route asks for nobody's role.  Whoever calls it,
    it hands the resume to the store at once: when the store accepts, the
    answer is 200 and trading is resumed in the caller's name; when the
    store rejects, the answer is a 500 with a fixed text and the world is
    unchanged.  It never answers 403 and never throws. *)
Theorem resume_route_asks_no_role req env w :
  let r := resume_ai req env w in
  match store_write env with
  | Normal _ =>
      completion r = Normal {| http_status := 200; success := true;
                               message := Some "AI Trading resumed globally.";
                               error := None |} /\
      final r = {| gate := gate w;
                   trading := reopen (ADMIN (adminId req)) (now env) (trading w) |} /\
      events r = [EvResume (ADMIN (adminId req))]
  | Throw _ =>
      completion r = Normal {| http_status := 500; success := false; message := None;
                               error := Some "An unexpected error occurred. Please try again later." |} /\
      final r = w /\
      events r = []
  end.
Proof.
  cbv zeta. unfold resume_ai, try_catch, resumeGlobalTrading.
  cbn [bind attempt ret throw M_monad].
  destruct (store_write env) as [[]|e]; cbn; repeat split.
Qed.

(** * The aggregator monitor *)

(** What the collector puts into the flags of a stats record. *)
Lemma collectAggregatorMetrics_flags js env s :
  fst (collectAggregatorMetrics js env) = Normal (Some s) ->
  queueLength s = 0 /\
  rpcHealthy s = negb (is_throw (rpc_latest_blockhash env)).
Proof.
  run_collect.
  destruct (db_trades_in_60s env) as [[[[|tr tl]|]]|e]; cbn; try discriminate.
  destruct (db_error_rate env) as [[[[|er el]|]]|e]; cbn; try discriminate.
  destruct (db_avg_latency env) as [[[ll|]]|e]; cbn; try discriminate.
  destruct (db_conflicts env) as [[[cl|]]|e]; cbn; try discriminate.
  destruct (rpc_latest_blockhash env) as [[]|e]; cbn;
    (destruct (db_recent_trades env) as [[[fl|]]|e']; cbn; try discriminate;
     destruct (map_rows (toTrade js) fl env) as [[trades|e''] t]; cbn; try discriminate;
     intros H; inversion H; subst; cbn; auto).
Qed.

(** When the collector answers [null]. *)
Lemma collectAggregatorMetrics_null js env :
  (is_throw (db_trades_in_60s env) = true \/
   (exists res, db_trades_in_60s env = Normal res /\ no_rows res = true) \/
   is_throw (db_error_rate env) = true) ->
  fst (collectAggregatorMetrics js env) = Normal None.
Proof.
  intros H. run_collect.
  destruct (db_trades_in_60s env) as [[[[|tr tl]|]]|e]; cbn; try reflexivity.
  destruct H as [H | [(res & Hres & Hno) | H]].
  - discriminate.
  - inversion Hres; subst res. discriminate.
  - destruct (db_error_rate env) as [r|e]; [discriminate|reflexivity].
Qed.

(** The alerts of a run that stored its stats. *)
Lemma monitor_alerts_of_stored_stats mon js env s :
  fst (collectAggregatorMetrics js env) = Normal (Some s) ->
  db_insert_aggregator_stats env = Normal tt ->
  0 <= QUEUE_LENGTH_THRESHOLD mon ->
  rev (filter is_alert (snd (runAggregatorMonitor mon js env))) =
    (if PrimFloat.ltb (ERROR_RATE_THRESHOLD mon) (trade_error_rate s)
     then [EvGlobalAlert (HIGH_ERROR_RATE_ALERT js (trade_error_rate s))] else [])
    ++ (if is_throw (rpc_latest_blockhash env)
        then [EvGlobalAlert RPC_UNHEALTHY_ALERT] else []).
Proof.
  intros Hs Hins Hq.
  destruct (collectAggregatorMetrics_flags js env s Hs) as [Hlen Hrpc].
  pose proof (collectAggregatorMetrics_probes js env) as Pc.
  unfold runAggregatorMonitor. cbn [bind R_monad].
  destruct (collectAggregatorMetrics js env) as [[[s'|]|e] t]; cbn in Hs;
    try discriminate.
  inversion Hs; subst s'. cbn [snd] in Pc.
  unfold handleAggregatorStats, query, sendAdminGlobalAlert, event.
  cbn [bind ret R_monad]. rewrite Hins, Hlen, Hrpc.
  assert (Hz : (0 >? QUEUE_LENGTH_THRESHOLD mon) = false).
  { rewrite Z.gtb_ltb. apply Z.ltb_ge. exact Hq. }
  rewrite Hz.
  destruct (PrimFloat.ltb (ERROR_RATE_THRESHOLD mon) (trade_error_rate s));
    destruct (is_throw (rpc_latest_blockhash env)); cbn;
    rewrite ?(filter_none is_alert is_probe t probe_is_no_alert Pc); reflexivity.
Qed.

(** X7: alerts of a monitor run.  When the collector returned a stats
    record, the INSERT was accepted and the queue threshold is not negative
    (which loading the module checks), the run completes and its alerts are
    exactly these: the high-error-rate alert when the error rate is strictly
    above the threshold, then the RPC alert when the RPC probe failed.  The
    queue-backlog alert is never sent, because the collector always reports
    a queue length of 0. *)
Theorem monitor_alerts mon js env s :
  fst (collectAggregatorMetrics js env) = Normal (Some s) ->
  db_insert_aggregator_stats env = Normal tt ->
  0 <= QUEUE_LENGTH_THRESHOLD mon ->
  fst (runAggregatorMonitor mon js env) = Normal tt /\
  rev (filter is_alert (snd (runAggregatorMonitor mon js env))) =
    (if PrimFloat.ltb (ERROR_RATE_THRESHOLD mon) (trade_error_rate s)
     then [EvGlobalAlert (HIGH_ERROR_RATE_ALERT js (trade_error_rate s))] else [])
    ++ (if is_throw (rpc_latest_blockhash env)
        then [EvGlobalAlert RPC_UNHEALTHY_ALERT] else []).
Proof.
  intros Hs Hins Hq. split.
  - pose proof (collectAggregatorMetrics_flags js env s Hs) as [Hlen Hrpc].
    unfold runAggregatorMonitor. cbn [bind R_monad].
    destruct (collectAggregatorMetrics js env) as [[[s'|]|e] t]; cbn in Hs;
      try discriminate.
    inversion Hs; subst s'.
    unfold handleAggregatorStats, query, sendAdminGlobalAlert, event.
    cbn [bind ret R_monad]. rewrite Hins.
    destruct (PrimFloat.ltb (ERROR_RATE_THRESHOLD mon) (trade_error_rate s));
      destruct (queueLength s >? QUEUE_LENGTH_THRESHOLD mon);
      destruct (negb (rpcHealthy s)); reflexivity.
  - exact (monitor_alerts_of_stored_stats mon js env s Hs Hins Hq).
Qed.

Lemma monitor_alerts_witness :
  fst (runAggregatorMonitor DEFAULT_MONITOR_CONFIG stub_builtins rpc_down_env) = Normal tt /\
  rev (filter is_alert (snd (runAggregatorMonitor DEFAULT_MONITOR_CONFIG stub_builtins
                               rpc_down_env))) =
    (if PrimFloat.ltb (ERROR_RATE_THRESHOLD DEFAULT_MONITOR_CONFIG)
          (trade_error_rate rpc_down_stats)
     then [EvGlobalAlert (HIGH_ERROR_RATE_ALERT stub_builtins (trade_error_rate rpc_down_stats))]
     else [])
    ++ (if is_throw (rpc_latest_blockhash rpc_down_env)
        then [EvGlobalAlert RPC_UNHEALTHY_ALERT] else []).
Proof.
  apply (monitor_alerts DEFAULT_MONITOR_CONFIG stub_builtins rpc_down_env rpc_down_stats);
    [reflexivity | reflexivity | cbn; lia].
Defined.

(** X8: the monitor alerts only about stats it could store.  When the INSERT
    into aggregator_stats is rejected, the error leaves
    [runAggregatorMonitor] and no alert is sent, whatever the stats say; the
    cron callback logs the error and completes. *)
Theorem monitor_insert_rejected_no_alert mon js env s e :
  fst (collectAggregatorMetrics js env) = Normal (Some s) ->
  db_insert_aggregator_stats env = Throw e ->
  fst (runAggregatorMonitor mon js env) = Throw e /\
  filter is_alert (snd (runAggregatorMonitor mon js env)) = [] /\
  fst (aggregatorMonitorTick mon js env) = Normal tt /\
  hd_error (snd (aggregatorMonitorTick mon js env))
    = Some (EvConsoleError "Error in aggregator monitor cron job:" (Some e)).
Proof.
  intros Hs Hins.
  pose proof (collectAggregatorMetrics_probes js env) as Pc.
  unfold aggregatorMonitorTick, try_catch, runAggregatorMonitor, console_error, event.
  cbn [bind attempt ret R_monad].
  destruct (collectAggregatorMetrics js env) as [[[s'|]|e'] t]; cbn in Hs;
    try discriminate.
  inversion Hs; subst s'. cbn [snd] in Pc.
  unfold handleAggregatorStats, query. cbn [bind ret R_monad]. rewrite Hins. cbn.
  rewrite (filter_none is_alert is_probe t probe_is_no_alert Pc). repeat split.
Qed.

Lemma monitor_insert_rejected_no_alert_witness :
  fst (runAggregatorMonitor DEFAULT_MONITOR_CONFIG stub_builtins stats_insert_rejected_env)
    = Throw (Error "relation aggregator_stats does not exist") /\
  filter is_alert (snd (runAggregatorMonitor DEFAULT_MONITOR_CONFIG stub_builtins
                          stats_insert_rejected_env)) = [] /\
  fst (aggregatorMonitorTick DEFAULT_MONITOR_CONFIG stub_builtins stats_insert_rejected_env)
    = Normal tt /\
  hd_error (snd (aggregatorMonitorTick DEFAULT_MONITOR_CONFIG stub_builtins
                   stats_insert_rejected_env))
    = Some (EvConsoleError "Error in aggregator monitor cron job:"
              (Some (Error "relation aggregator_stats does not exist"))).
Proof.
  apply (monitor_insert_rejected_no_alert DEFAULT_MONITOR_CONFIG stub_builtins
           stats_insert_rejected_env rpc_down_stats
           (Error "relation aggregator_stats does not exist")); reflexivity.
Defined.

(** A NaN compares false with everything. *)
Lemma nan_not_below (x y : float) :
  PrimFloat.is_nan x = true ->
  PrimFloat.ltb x y = false /\ PrimFloat.ltb y x = false.
Proof.
  unfold PrimFloat.is_nan.
  rewrite !FloatAxioms.ltb_spec, FloatAxioms.eqb_spec.
  destruct (Prim2SF x) as [s|s| |s m e]; try destruct s; cbn; try discriminate.
  - intros _. unfold SFltb. cbn. split; [reflexivity|]. now destruct (Prim2SF y) as [[]|[]| |[]].
  - unfold SFeqb, SFcompare. rewrite Z.compare_refl, Pos.compare_refl. discriminate.
  - unfold SFeqb, SFcompare. rewrite Z.compare_refl, Pos.compare_refl. discriminate.
Qed.

(** X9: the load-time check of the thresholds lets a NaN through.  When
    ERROR_RATE_THRESHOLD is set to something [parseFloat] reads as NaN, the
    module loads with that threshold (the queue threshold being acceptable),
    and from then on no error rate is "above" it: a run that stored its
    stats never sends the high-error-rate alert, whatever the rate. *)
Theorem nan_threshold_silences_error_alert thr queue_variable js env s :
  PrimFloat.is_nan thr = true ->
  match queue_variable with Some n => 0 <= n | None => True end ->
  fst (collectAggregatorMetrics js env) = Normal (Some s) ->
  db_insert_aggregator_stats env = Normal tt ->
  exists mon,
    loadMonitorConfig (Some thr) queue_variable = Normal mon /\
    ERROR_RATE_THRESHOLD mon = thr /\
    rev (filter is_alert (snd (runAggregatorMonitor mon js env))) =
      (if is_throw (rpc_latest_blockhash env)
       then [EvGlobalAlert RPC_UNHEALTHY_ALERT] else []).
Proof.
  intros Hnan Hq Hs Hins.
  set (q := match queue_variable with Some n => n | None => 20 end).
  assert (Hq0 : 0 <= q) by (subst q; destruct queue_variable; lia).
  exists {| ERROR_RATE_THRESHOLD := thr; QUEUE_LENGTH_THRESHOLD := q |}.
  split; [|split; [reflexivity|]].
  - unfold loadMonitorConfig. fold q.
    rewrite (proj1 (nan_not_below thr 0 Hnan)), (proj2 (nan_not_below thr 1 Hnan)).
    cbn [orb]. apply Z.ltb_ge in Hq0. now rewrite Hq0.
  - rewrite (monitor_alerts_of_stored_stats
               {| ERROR_RATE_THRESHOLD := thr; QUEUE_LENGTH_THRESHOLD := q |}
               js env s Hs Hins Hq0). cbn.
    now rewrite (proj1 (nan_not_below thr (trade_error_rate s) Hnan)).
Qed.

Lemma nan_threshold_silences_error_alert_witness :
  exists mon,
    loadMonitorConfig (Some PrimFloat.nan) None = Normal mon /\
    ERROR_RATE_THRESHOLD mon = PrimFloat.nan /\
    rev (filter is_alert (snd (runAggregatorMonitor mon stub_builtins rpc_down_env))) =
      (if is_throw (rpc_latest_blockhash rpc_down_env)
       then [EvGlobalAlert RPC_UNHEALTHY_ALERT] else []).
Proof.
  apply (nan_threshold_silences_error_alert PrimFloat.nan None stub_builtins rpc_down_env
           rpc_down_stats); [reflexivity | exact I | reflexivity | reflexivity].
Defined.

(** X10: what the callers of a collector do with [null].  Whatever the
    collector is, when it answers [null] the metrics route answers 200 with
    [success: true] and [data: null], while [generateSystemReport] throws a
    TypeError.  The metrics route itself never throws: an error of the
    collector becomes a 500 answer. *)
Theorem null_stats_in_route_and_report js (collect : R (option Stats)) env :
  fst (collect env) = Normal None ->
  fst (AdminWebApp.metrics collect env) =
    Normal {| AdminWebApp.metrics_status := 200; AdminWebApp.metrics_success := true;
              AdminWebApp.data := Some None; AdminWebApp.metrics_error := None |} /\
  fst (generateSystemReport js collect env) =
    Throw (TypeError "Cannot read properties of null (reading 'aggregator_tps')") /\
  (forall env', exists resp,
     fst (AdminWebApp.metrics collect env') = Normal resp /\
     AdminWebApp.metrics_status resp =
       if is_throw (fst (collect env')) then 500 else 200).
Proof.
  intros N.
  unfold AdminWebApp.metrics, generateSystemReport, try_catch.
  cbn [bind attempt ret throw R_monad].
  split; [|split].
  - destruct (collect env) as [[[s|]|e] t]; cbn in N; try discriminate. reflexivity.
  - destruct (collect env) as [[[s|]|e] t]; cbn in N; try discriminate. reflexivity.
  - intros env'. destruct (collect env') as [[st|e] t]; cbn; eauto.
Qed.

Lemma null_stats_in_route_and_report_witness :
  fst (AdminWebApp.metrics (collectAggregatorMetrics stub_builtins) tps_rejected_env) =
    Normal {| AdminWebApp.metrics_status := 200; AdminWebApp.metrics_success := true;
              AdminWebApp.data := Some None; AdminWebApp.metrics_error := None |} /\
  fst (generateSystemReport stub_builtins (collectAggregatorMetrics stub_builtins)
         tps_rejected_env) =
    Throw (TypeError "Cannot read properties of null (reading 'aggregator_tps')") /\
  (forall env', exists resp,
     fst (AdminWebApp.metrics (collectAggregatorMetrics stub_builtins) env') = Normal resp /\
     AdminWebApp.metrics_status resp =
       if is_throw (fst (collectAggregatorMetrics stub_builtins env')) then 500 else 200).
Proof.
  apply (null_stats_in_route_and_report stub_builtins
           (collectAggregatorMetrics stub_builtins) tps_rejected_env).
  reflexivity.
Defined.

(** What [logAdminAction] of adminLogs.js does, in full. *)
Lemma critical_actions_core admin action details env :
  fst (AdminLogs.logAdminAction admin action details env) = Normal tt /\
  snd (AdminLogs.logAdminAction admin action details env) =
    match db_insert_admin_logs env with
    | Normal _ =>
        (if (action =? "pauseTrading")%string || (action =? "setCircuitBreaker")%string
         then [EvGlobalAlert ("Critical action logged: " ++ action)%string] else [])
          ++ [EvQuery (Q_insert_admin_logs admin action details)]
    | Throw e =>
        [EvConsoleError "Error logging admin action:" (Some e);
         EvQuery (Q_insert_admin_logs admin action details)]
    end.
Proof.
  unfold AdminLogs.logAdminAction, try_catch, query, console_error,
    sendAdminGlobalAlert, event.
  cbn [bind attempt ret throw R_monad].
  destruct (db_insert_admin_logs env) as [[]|e0]; cbn; [|split; reflexivity].
  destruct ((action =? "pauseTrading")%string || (action =? "setCircuitBreaker")%string);
    split; reflexivity.
Qed.

(** X11: [logAdminAction] of adminLogs.js never throws, and it raises the
    "Critical action logged" alert exactly when the action is "pauseTrading"
    or "setCircuitBreaker" and the log row was written: a critical action
    whose INSERT is rejected is only reported on the console. *)
Theorem critical_actions_alert_after_logging admin action details env :
  let r := AdminLogs.logAdminAction admin action details env in
  fst r = Normal tt /\
  filter is_alert (snd r) =
    (if negb (is_throw (db_insert_admin_logs env))
        && ((action =? "pauseTrading")%string || (action =? "setCircuitBreaker")%string)
     then [EvGlobalAlert ("Critical action logged: " ++ action)%string]
     else []) /\
  existsb (fun ev => match ev with EvConsoleError _ _ => true | _ => false end) (snd r)
    = is_throw (db_insert_admin_logs env).
Proof.
  cbv zeta.
  destruct (critical_actions_core admin action details env) as [N T].
  rewrite N, T. split; [reflexivity|].
  destruct (db_insert_admin_logs env) as [[]|e0]; cbn; [|split; reflexivity].
  destruct ((action =? "pauseTrading")%string || (action =? "setCircuitBreaker")%string);
    split; reflexivity.
Qed.

(** * Start-up, search, settings, roles and reports *)

Lemma no_schedule_in_base (t : list Event) : existsb is_schedule (map Base t) = false.
Proof. induction t as [|e t IH]; [reflexivity | exact IH]. Qed.

(** X12: both scripts install their cron job only after a first run that
    completed.  [main] logs its start and awaits the first run outside any
    [try]: when that run throws, [main] ends with the same error and
    [cron.schedule] is never reached, so no later run happens; when it
    completes, the last thing [main] does is to install its own job with
    the pattern [*/5 * * * *] in the time zone UTC.  Besides the start line,
    the first run and that installation, [main] does nothing. *)
Theorem schedule_installed_only_after_first_run cfg mon js self db w :
  let first_cycle := runRiskScanner cfg js self (base_env db) w in
  let scanner := riskScanner_main cfg js self db w in
  let first_monitor := runAggregatorMonitor mon js (base_env db) in
  let monitor := aggregatorMonitor_main mon js db w in
  (outcome scanner = completion first_cycle /\
   existsb is_schedule (effects scanner) = negb (is_throw (completion first_cycle)) /\
   effects scanner =
     (if is_throw (completion first_cycle) then []
      else [CronSchedule "*/5 * * * *" RiskScannerJob "UTC"])
       ++ map Base (events first_cycle)
       ++ [Base (EvConsoleLog "[riskScanner] Starting risk scanner...")]) /\
  (outcome monitor = fst first_monitor /\
   existsb is_schedule (effects monitor) = negb (is_throw (fst first_monitor)) /\
   effects monitor =
     (if is_throw (fst first_monitor) then []
      else [CronSchedule "*/5 * * * *" AggregatorMonitorJob "UTC"])
       ++ map Base (snd first_monitor)
       ++ [Base (EvConsoleLog "[aggregatorMonitor] Starting aggregator monitor...")]).
Proof.
  cbv zeta. unfold riskScanner_main, aggregatorMonitor_main, scheduleRiskScanner,
    scheduleAggregatorMonitor, ofR, ofM, event.
  cbn [bind attempt ret throw P_monad]. split.
  - destruct (runRiskScanner cfg js self (base_env db) w) as [[[[]|e] w1] t];
      cbn; (split; [reflexivity|]); (split; [|reflexivity]).
    + reflexivity.
    + rewrite existsb_app, no_schedule_in_base. reflexivity.
  - destruct (runAggregatorMonitor mon js (base_env db)) as [[[]|e] t];
      cbn; (split; [reflexivity|]); (split; [|reflexivity]).
    + reflexivity.
    + rewrite existsb_app, no_schedule_in_base. reflexivity.
Qed.

Ltac split_filter v :=
  let p := fresh "p" in
  destruct v as [p|]; [destruct (truthy_param p)|].

Ltac split_filters filters :=
  let fa := fresh "fa" in
  let fu := fresh "fu" in
  let fs := fresh "fs" in
  let fe := fresh "fe" in
  destruct filters as [fa fu fs fe];
  cbn [filter_action filter_adminUser filter_since filter_until];
  split_filter fa; split_filter fu; split_filter fs; split_filter fe.

(** X13: in the query [searchAdminLogs] builds, the placeholders of the text
    are [$1 ... $n] in order, where n is the number of parameters; the
    parameters are the truthy filter values in the order action, adminUser,
    since, until, followed by the limit, and the limit is the requested one
    (50 by default) capped at 100.  That text and those parameters are the
    only thing the function sends to the database. *)
Theorem search_placeholders_match_params filters limit_arg db w :
  let q := fst (searchAdminLogs_query filters limit_arg) in
  let params := snd (searchAdminLogs_query filters limit_arg) in
  let limit := Z.min (match limit_arg with Some l => l | None => 50 end) 100 in
  placeholders q = seq 1 (List.length params) /\
  params = present filters ++ [PInt limit] /\
  limit <= 100 /\
  effects (searchAdminLogs filters limit_arg db w) = [SqlText q params].
Proof.
  cbv zeta. split; [|split; [|split]].
  - unfold searchAdminLogs_query, push_filter. split_filters filters; reflexivity.
  - unfold searchAdminLogs_query, push_filter, present.
    cbn [flat_map]. split_filters filters; reflexivity.
  - apply Z.le_min_r.
  - unfold searchAdminLogs, select_admin_logs.
    destruct (searchAdminLogs_query filters limit_arg) as [q params].
    cbn [bind ret P_monad fst snd]. now destruct (admin_logs db q params).
Qed.

Lemma search_text_by_shape filters limit_arg :
  fst (searchAdminLogs_query filters limit_arg) =
  fst (searchAdminLogs_query (filters_of_shape (filter_shape filters)) None).
Proof.
  unfold filter_shape, searchAdminLogs_query, push_filter. cbn [map].
  split_filters filters; reflexivity.
Qed.

(** X14: the values of the filters never enter the text of the query: two
    searches whose filters are truthy in the same positions send the same
    text, whatever the values and the limits are. *)
Theorem search_text_ignores_values filters1 filters2 limit1 limit2 :
  filter_shape filters1 = filter_shape filters2 ->
  fst (searchAdminLogs_query filters1 limit1) = fst (searchAdminLogs_query filters2 limit2).
Proof.
  intros H.
  rewrite (search_text_by_shape filters1 limit1), (search_text_by_shape filters2 limit2).
  now rewrite H.
Qed.

Lemma search_text_ignores_values_witness :
  fst (searchAdminLogs_query
         {| filter_action := Some (PText "pauseTrading"); filter_adminUser := None;
            filter_since := Some (PText "2024-01-01"); filter_until := Some (PText "") |}
         (Some 500))
  = fst (searchAdminLogs_query
           {| filter_action := Some (PText "x' OR 1=1 --"); filter_adminUser := Some (PInt 0);
              filter_since := Some (PInt 7); filter_until := None |}
           None).
Proof.
  apply (search_text_ignores_values
           {| filter_action := Some (PText "pauseTrading"); filter_adminUser := None;
              filter_since := Some (PText "2024-01-01"); filter_until := Some (PText "") |}
           {| filter_action := Some (PText "x' OR 1=1 --"); filter_adminUser := Some (PInt 0);
              filter_since := Some (PInt 7); filter_until := None |}
           (Some 500) None).
  reflexivity.
Defined.

Lemma statements_of_base (t : list Event) (rest : list Effect) :
  flat_map (fun e => match e with Exec s => [s] | _ => [] end) (map Base t ++ rest)
  = flat_map (fun e => match e with Exec s => [s] | _ => [] end) rest.
Proof. induction t as [|e t IH]; [reflexivity | exact IH]. Qed.

Lemma statements_app (t1 t2 : list Effect) :
  statements (t1 ++ t2) = statements t2 ++ statements t1.
Proof. unfold statements. now rewrite rev_app_distr, flat_map_app. Qed.

Lemma statements_base (t : list Event) : statements (map Base t) = [].
Proof.
  unfold statements. rewrite <- map_rev.
  induction (rev t) as [|e l IH]; [reflexivity | exact IH].
Qed.

(** What [setGlobalRiskSetting] sends and how it ends, by the answers of
    the database. *)
Lemma setGlobalRiskSetting_statements admin key value db w :
  let r := setGlobalRiskSetting admin key value db w in
  let upsert := S_upsert_global_setting key value in
  let rolled_back e :=
    match answer db S_rollback with Normal _ => Throw e | Throw e' => Throw e' end in
  match answer db S_begin with
  | Throw e => outcome r = Throw e /\ statements (effects r) = [S_begin]
  | Normal _ =>
      match answer db upsert with
      | Throw e =>
          outcome r = rolled_back e /\
          statements (effects r) = [S_begin; upsert; S_rollback]
      | Normal _ =>
          match answer db S_commit with
          | Throw e =>
              outcome r = rolled_back e /\
              statements (effects r) = [S_begin; upsert; S_commit; S_rollback]
          | Normal _ =>
              outcome r = Normal tt /\
              statements (effects r) = [S_begin; upsert; S_commit]
          end
      end
  end.
Proof.
  cbv zeta. unfold setGlobalRiskSetting, try_catch, exec, ofR.
  cbn [bind attempt ret throw P_monad].
  destruct (answer db S_begin) as [[]|e0]; [|split; reflexivity].
  pose proof (logAdminAction_never_throws admin "setGlobalRisk"
                ("key=" ++ key ++ ", value=" ++ value)%string (base_env db)) as N.
  destruct (logAdminAction admin "setGlobalRisk" _ (base_env db)) as [c t0].
  cbn [fst] in N. subst c.
  destruct (answer db (S_upsert_global_setting key value)) as [[]|e1].
  - destruct (answer db S_commit) as [[]|e2].
    + split; [reflexivity|]. cbn [effects snd fst].
      rewrite !app_nil_l, <- !app_assoc. cbn [app].
      change (Exec S_commit :: Exec (S_upsert_global_setting key value)
                :: map Base t0 ++ [Exec S_begin])
        with ([Exec S_commit; Exec (S_upsert_global_setting key value)]
                ++ map Base t0 ++ [Exec S_begin]).
      rewrite !statements_app, statements_base. reflexivity.
    + destruct (answer db S_rollback) as [[]|e3]; (split; [reflexivity|]);
        cbn [effects snd fst]; rewrite ?app_nil_l, <- ?app_assoc; cbn [app];
        match goal with
        | |- statements (?a :: ?b :: ?c :: map Base t0 ++ ?d) = _ =>
            change (a :: b :: c :: map Base t0 ++ d) with ([a; b; c] ++ map Base t0 ++ d)
        end;
        rewrite !statements_app, statements_base; reflexivity.
  - destruct (answer db S_rollback) as [[]|e3]; (split; [reflexivity|]);
      cbn [effects snd fst]; rewrite ?app_nil_l, <- ?app_assoc; cbn [app];
      match goal with
      | |- statements (?a :: ?b :: map Base t0 ++ ?d) = _ =>
          change (a :: b :: map Base t0 ++ d) with ([a; b] ++ map Base t0 ++ d)
      end;
      rewrite !statements_app, statements_base; reflexivity.
Qed.

(** X15: [setGlobalRiskSetting] answers every failure inside its
    transaction with a ROLLBACK.  When BEGIN is rejected nothing else is
    sent.  Otherwise the statements are BEGIN and the upsert, followed by
    COMMIT when the upsert was accepted, and by ROLLBACK whenever the upsert
    or the COMMIT was rejected; the function completes exactly when the
    COMMIT was accepted, and otherwise throws the error of the rejected
    statement (or of the ROLLBACK, when that is rejected too).  An accepted
    BEGIN is followed by an accepted COMMIT or ROLLBACK in every run but
    one kind: when the upsert or the COMMIT was rejected and the ROLLBACK is
    rejected as well, no closing statement was accepted.  Whether the audit
    log could be written plays no part. *)
Theorem setGlobalRiskSetting_transaction admin key value db w :
  let r := setGlobalRiskSetting admin key value db w in
  let upsert := S_upsert_global_setting key value in
  let rolled_back e :=
    match answer db S_rollback with Normal _ => Throw e | Throw e' => Throw e' end in
  let ok s := negb (is_throw (answer db s)) in
  match answer db S_begin with
  | Throw e => outcome r = Throw e /\ statements (effects r) = [S_begin]
  | Normal _ =>
      match answer db upsert with
      | Throw e =>
          outcome r = rolled_back e /\
          statements (effects r) = [S_begin; upsert; S_rollback]
      | Normal _ =>
          match answer db S_commit with
          | Throw e =>
              outcome r = rolled_back e /\
              statements (effects r) = [S_begin; upsert; S_commit; S_rollback]
          | Normal _ =>
              outcome r = Normal tt /\
              statements (effects r) = [S_begin; upsert; S_commit]
          end
      end
  end /\
  existsb closes (accepted db (statements (effects r))) =
    ok S_begin && ((ok upsert && ok S_commit) || ok S_rollback).
Proof.
  cbv zeta.
  pose proof (setGlobalRiskSetting_statements admin key value db w) as H.
  cbv zeta in H. split; [exact H|].
  unfold accepted.
  destruct (answer db S_begin) as [[]|e0] eqn:Eb.
  - destruct (answer db (S_upsert_global_setting key value)) as [[]|e1] eqn:Eu.
    + destruct (answer db S_commit) as [[]|e2] eqn:Ec.
      * destruct H as [_ ->]. cbn [filter]. rewrite Eb, Eu, Ec. reflexivity.
      * destruct H as [_ ->]. cbn [filter]. rewrite Eb, Eu, Ec.
        destruct (answer db S_rollback) as [[]|e3]; reflexivity.
    + destruct H as [_ ->]. cbn [filter]. rewrite Eb, Eu.
      destruct (answer db S_rollback) as [[]|e3]; reflexivity.
  - destruct H as [_ ->]. cbn [filter]. rewrite Eb. reflexivity.
Qed.

Lemma includes_In (l : list string) (x : string) : includes l x = true -> In x l.
Proof.
  unfold includes. intros H. apply existsb_exists in H.
  destruct H as (y & Hy & Heq). apply String.eqb_eq in Heq. now subst y.
Qed.

(** X16: [setAdminRole] writes a role only for a caller whose own role is
    superadmin and only a role of the allowed list: in every run the
    statements sent are either none, or the single upsert of the given
    target and role, and in the latter case the caller's role was read as
    "superadmin" and the role is one of superadmin, riskmanager and
    tradermanager.  A run that sends no statement throws, and does nothing
    but look up the caller's role: in particular it writes no audit log. *)
Theorem setAdminRole_writes_only_allowed js admin target newRole db w :
  let r := setAdminRole js admin target newRole db w in
  (statements (effects r) = [] /\
   (fst (getAdminRole admin (base_env db)) <> Normal "superadmin" \/
    ~ In newRole allowedRoles) /\
   effects r = map Base (snd (getAdminRole admin (base_env db))) /\
   outcome r <> Normal tt) \/
  (statements (effects r) = [S_upsert_admin_role target newRole] /\
   fst (getAdminRole admin (base_env db)) = Normal "superadmin" /\
   In newRole allowedRoles /\
   outcome r = answer db (S_upsert_admin_role target newRole)).
Proof.
  cbv zeta. unfold setAdminRole, exec, ofR.
  cbn [bind attempt ret throw P_monad].
  destruct (getAdminRole admin (base_env db)) as [[adminRole|e] tr]; cbn [fst snd].
  2:{ left. cbn [effects outcome fst snd app]. rewrite statements_base.
      split; [reflexivity|]. split; [|split; [reflexivity|discriminate]].
      left. discriminate. }
  destruct (String.eqb_spec adminRole "superadmin") as [->|Hne]; cbn [negb].
  2:{ left. cbn [effects outcome fst snd app]. rewrite statements_base.
      split; [reflexivity|]. split; [|split; [reflexivity|discriminate]].
      left. intros H. inversion H. contradiction. }
  destruct (includes allowedRoles newRole) eqn:Hin; cbn [negb].
  2:{ left. cbn [effects outcome fst snd app]. rewrite statements_base.
      split; [reflexivity|]. split; [|split; [reflexivity|discriminate]].
      right. intros H. unfold includes in Hin.
      assert (existsb (String.eqb newRole) allowedRoles = true); [|congruence].
      apply existsb_exists. exists newRole. split; [exact H | apply String.eqb_refl]. }
  right.
  pose proof (logAdminAction_never_throws admin "setAdminRole"
                ("target=" ++ numberToString js (num target) ++ ", role=" ++ newRole)%string
                (base_env db)) as N.
  destruct (logAdminAction admin "setAdminRole" _ (base_env db)) as [c t0].
  cbn [fst] in N. subst c. cbn [effects outcome fst snd].
  split; [|split; [reflexivity|split; [now apply includes_In|]]].
  - destruct (answer db (S_upsert_admin_role target newRole)); cbn [snd];
      rewrite <- ?app_assoc; cbn [app];
      change (Exec (S_upsert_admin_role target newRole) :: map Base t0 ++ map Base tr)
        with ([Exec (S_upsert_admin_role target newRole)] ++ map Base t0 ++ map Base tr);
      rewrite !statements_app, !statements_base; reflexivity.
  - now destruct (answer db (S_upsert_admin_role target newRole)) as [[]|].
Qed.

(** X17: the two functions named [setUserRiskRating].  The one of
    complianceTools.js sends its UPDATE only for a rating of the list low,
    medium, high, restricted, writes the audit log only after the UPDATE was
    accepted, and rethrows every error after logging it on the console.
    The one of admin.js checks nothing: it writes the audit log first and
    then sends the UPDATE with whatever rating it was given. *)
Theorem risk_rating_validation js admin user rating_arg rating db w :
  let newRating := match rating_arg with Some r => r | None => "medium" end in
  let checked := ComplianceTools.setUserRiskRating js admin user rating_arg db w in
  let unchecked := setUserRiskRating js admin user rating db w in
  let logged e :=
    existsb (fun ev => match ev with
                       | Base (EvConsoleError "Error setting user risk rating:" (Some e')) =>
                           true
                       | _ => false
                       end) (effects e) in
  let audited e :=
    existsb (fun ev => match ev with
                       | Base (EvQuery (Q_insert_admin_logs _ _ _)) => true
                       | _ => false
                       end) (effects e) in
  (if includes ComplianceTools.validRatings newRating then
     statements (effects checked) = [S_update_risk_rating newRating user] /\
     outcome checked = answer db (S_update_risk_rating newRating user) /\
     audited checked = negb (is_throw (answer db (S_update_risk_rating newRating user))) /\
     logged checked = is_throw (answer db (S_update_risk_rating newRating user))
   else
     statements (effects checked) = [] /\
     is_throw (outcome checked) = true /\
     audited checked = false /\
     logged checked = true) /\
  statements (effects unchecked) = [S_update_risk_rating rating user] /\
  audited unchecked = true /\
  outcome unchecked = answer db (S_update_risk_rating rating user).
Proof.
  cbv zeta. split.
  - unfold ComplianceTools.setUserRiskRating, try_catch, exec, ofR, console_error, event.
    cbn [bind attempt ret throw P_monad].
    set (newRating := match rating_arg with Some r => r | None => "medium" end).
    destruct (includes ComplianceTools.validRatings newRating); cbn [negb].
    + cbn [bind attempt ret throw P_monad].
      destruct (answer db (S_update_risk_rating newRating user)) as [[]|e].
      * pose proof (critical_actions_core admin "setUserRisk"
                      ("userId=" ++ numberToString js (num user) ++ ", rating=" ++ newRating)%string
                      (base_env db)) as [N T].
        destruct (AdminLogs.logAdminAction admin "setUserRisk" _ (base_env db)) as [c t0].
        cbn [fst snd] in N, T. subst c.
        destruct (db_insert_admin_logs (base_env db)) as [[]|e0]; subst t0; cbn;
          repeat split.
      * cbn. repeat split.
    + cbn. repeat split.
  - unfold setUserRiskRating, exec, ofR, logAdminAction, try_catch, query,
      console_error, event.
    cbn [bind attempt ret throw P_monad R_monad].
    destruct (db_insert_admin_logs (base_env db)) as [[]|e0]; cbn;
      destruct (answer db (S_update_risk_rating rating user)) as [[]|e]; cbn;
      repeat split.
Qed.

(** ** The daily report *)

Lemma generateSystemReport_probes js (collect : R (option Stats)) :
  emits_only is_probe collect -> emits_only is_probe (generateSystemReport js collect).
Proof.
  intros Hc. unfold generateSystemReport.
  apply emits_bind; [exact Hc|]. intros. emits.
Qed.

Lemma deliveries_app (t1 t2 : list Effect) :
  deliveries (t1 ++ t2) = deliveries t2 ++ deliveries t1.
Proof. unfold deliveries. now rewrite rev_app_distr, filter_app. Qed.

Lemma deliveries_of_probes (t : list Event) :
  forallb is_probe t = true -> deliveries (map Base t) = [].
Proof.
  intros H. unfold deliveries. rewrite <- map_rev.
  assert (Hr : forallb is_probe (rev t) = true).
  { apply forallb_forall. intros x Hx. apply in_rev in Hx.
    exact (proj1 (forallb_forall _ _) H x Hx). }
  induction (rev t) as [|e l IH]; [reflexivity|].
  cbn in Hr. apply andb_prop in Hr. destruct Hr as [He Hl].
  cbn. destruct e; cbn in He; try discriminate; auto.
Qed.

Lemma report_rounds js collect db w l summary :
  emits_only is_probe collect ->
  fst (generateSystemReport js collect (base_env db)) = Normal summary ->
  (forall report, In report l -> answer db (S_advance_report (report_id report)) = Normal tt) ->
  let r := for_each_report l (report_round js collect) db w in
  outcome r = Normal tt /\
  deliveries (effects r) =
    flat_map (fun report =>
                [Base (EvAdminNotification (report_admin_id report) summary);
                 Exec (S_advance_report (report_id report))]) l.
Proof.
  intros Hc Hg.
  pose proof (generateSystemReport_probes js collect Hc (base_env db)) as Pg.
  revert w. induction l as [|x l IH]; intros w Hall; [split; reflexivity|].
  cbv zeta. cbn [for_each_report]. cbn [bind P_monad].
  assert (Hx : report_round js collect x db w =
               (Normal tt, w,
                Exec (S_advance_report (report_id x))
                  :: Base (EvAdminNotification (report_admin_id x) summary)
                  :: map Base (snd (generateSystemReport js collect (base_env db))))).
  { unfold report_round, ofR, exec, sendAdminNotification, event.
    cbn [bind ret P_monad].
    destruct (generateSystemReport js collect (base_env db)) as [c tg].
    cbn [fst snd] in *. subst c. now rewrite (Hall x (or_introl eq_refl)). }
  rewrite Hx.
  destruct (IH w (fun r H => Hall r (or_intror H))) as [Ho Hd].
  destruct (for_each_report l (report_round js collect) db w) as [[c w'] t].
  cbn [outcome effects fst snd] in *. subst c. split; [reflexivity|].
  rewrite deliveries_app, Hd.
  change (Exec (S_advance_report (report_id x))
            :: Base (EvAdminNotification (report_admin_id x) summary)
            :: map Base (snd (generateSystemReport js collect (base_env db))))
    with ([Exec (S_advance_report (report_id x));
           Base (EvAdminNotification (report_admin_id x) summary)]
            ++ map Base (snd (generateSystemReport js collect (base_env db)))).
  rewrite deliveries_app, (deliveries_of_probes _ Pg). reflexivity.
Qed.

Lemma report_round_without_stats js collect db w report :
  fst (collect (base_env db)) = Normal None ->
  report_round js collect report db w =
    (Throw (TypeError "Cannot read properties of null (reading 'aggregator_tps')"), w,
     map Base (snd (collect (base_env db)))).
Proof.
  intros Hnull. unfold report_round, ofR, generateSystemReport.
  cbn [bind throw P_monad R_monad].
  destruct (collect (base_env db)) as [[[s|]|e] t];
    cbn in Hnull; try discriminate.
  reflexivity.
Qed.

(** X18: the daily report job, for a collector that only reads and logs.
    With no report due it completes without calling the collector.  When
    the report can be generated and the database accepts the updates, every
    due report is handled in the order of the rows: its admin is sent the
    summary and then its next run is advanced, one report after the other.
    When the collector answers [null] and a report is due, the job throws at
    the first report: nobody is notified and no schedule is advanced. *)
Theorem daily_report_job js collect db w l :
  emits_only is_probe collect ->
  due_reports db = Normal {| rows := Some l |} ->
  let r := dailyReportJob js collect db w in
  (l = [] -> outcome r = Normal tt /\ effects r = [Exec S_select_due_reports]) /\
  (forall summary,
     fst (generateSystemReport js collect (base_env db)) = Normal summary ->
     (forall report, In report l ->
        answer db (S_advance_report (report_id report)) = Normal tt) ->
     outcome r = Normal tt /\
     deliveries (effects r) =
       flat_map (fun report =>
                   [Base (EvAdminNotification (report_admin_id report) summary);
                    Exec (S_advance_report (report_id report))]) l) /\
  (fst (collect (base_env db)) = Normal None ->
   l <> [] ->
   outcome r = Throw (TypeError "Cannot read properties of null (reading 'aggregator_tps')") /\
   deliveries (effects r) = []).
Proof.
  intros Hc Hdue. cbv zeta.
  unfold dailyReportJob, select_due_reports. cbn [bind P_monad]. rewrite Hdue. cbn [rows].
  split; [|split].
  - intros ->. split; reflexivity.
  - intros summary Hg Hall.
    destruct (report_rounds js collect db w l summary Hc Hg Hall) as [Ho Hd].
    destruct (for_each_report l (report_round js collect) db w) as [[c w'] t].
    cbn [outcome effects fst snd] in *. subst c. split; [reflexivity|].
    rewrite (deliveries_app t [Exec S_select_due_reports]), Hd. reflexivity.
  - intros Hnull Hne. destruct l as [|x l]; [contradiction|].
    pose proof (Hc (base_env db)) as Pc.
    cbn [for_each_report]. cbn [bind P_monad].
    rewrite (report_round_without_stats js collect db w x Hnull).
    cbn [outcome effects fst snd]. split; [reflexivity|].
    rewrite (deliveries_app (map Base (snd (collect (base_env db))))
               [Exec S_select_due_reports]).
    now rewrite (deliveries_of_probes _ Pc).
Qed.

Lemma daily_report_job_witness :
  let collect := collectAggregatorMetrics stub_builtins in
  (let r := dailyReportJob stub_builtins collect (upsert_rejecting_db calm_env) idle_world in
   outcome r = Normal tt /\ effects r = [Exec S_select_due_reports]) /\
  (let r := dailyReportJob stub_builtins collect (willing_db calm_env) idle_world in
   outcome r = Normal tt /\
   deliveries (effects r) =
     flat_map (fun report =>
                 [Base (EvAdminNotification (report_admin_id report)
                          (LF ++ "System Report:" ++ LF ++ "TPS: 0.00" ++ LF
                              ++ "ErrorRate: 0.00%" ++ LF ++ "Avg Latency: 0 ms" ++ LF
                              ++ "QueueLength: 0" ++ LF ++ "  ")%string);
                  Exec (S_advance_report (report_id report))])
       [{| report_id := 10; report_admin_id := 1 |};
        {| report_id := 11; report_admin_id := 4 |}]) /\
  (let r := dailyReportJob stub_builtins collect (willing_db tps_rejected_env) idle_world in
   outcome r = Throw (TypeError "Cannot read properties of null (reading 'aggregator_tps')") /\
   deliveries (effects r) = []).
Proof.
  cbv zeta.
  pose proof (collectAggregatorMetrics_probes stub_builtins) as Pc.
  split; [|split].
  - apply (proj1 (daily_report_job stub_builtins _ (upsert_rejecting_db calm_env) idle_world
                    [] Pc eq_refl) eq_refl).
  - apply (proj1 (proj2 (daily_report_job stub_builtins _ (willing_db calm_env) idle_world
                           [{| report_id := 10; report_admin_id := 1 |};
                            {| report_id := 11; report_admin_id := 4 |}] Pc eq_refl)));
      reflexivity.
  - apply (proj2 (proj2 (daily_report_job stub_builtins _ (willing_db tps_rejected_env)
                           idle_world
                           [{| report_id := 10; report_admin_id := 1 |};
                            {| report_id := 11; report_admin_id := 4 |}] Pc eq_refl)));
      [reflexivity | discriminate].
Defined.
